(** * Model selectors and recogniser of the ASL word recogniser

    A shallow embedding of [my_model_selectors.py] and [my_recognizer.py].

    - Python floats are IEEE binary64 values: [spec_float] of the Standard
      Library at precision 53 and maximal exponent 1024, with its infinities
      and its NaN, on which every ordered comparison is false.
    - A Python computation that may raise is a value of [py A]; a
      [try: ... except: ...] block is [try_except].
    - hmmlearn and numpy are outside the repository: what the code uses of
      them is the interface [Libraries].
    - A [dict] is an association list in insertion order. *)

From Stdlib Require Import ZArith List Bool String Lia.
From Stdlib Require Import Floats.SpecFloat.
Import ListNotations.
Local Open Scope Z_scope.

(** ** Python floats *)

Definition float : Type := spec_float.

Definition prec : Z := 53.
Definition emax : Z := 1024.

(** [float("inf")], [float("-inf")] and the NaN that an invalid operation
    yields. *)
Definition inf : float := S754_infinity false.
Definition neg_inf : float := S754_infinity true.
Definition nan : float := S754_nan.
Definition zero : float := S754_zero false.

(** [x < y], [x <= y] and [x > y] on floats. *)
Definition flt (x y : float) : bool := SFltb x y.
Definition fle (x y : float) : bool := SFleb x y.
Definition fgt (x y : float) : bool := SFltb y x.
Definition fge (x y : float) : bool := SFleb y x.

Definition fadd : float -> float -> float := SFadd prec emax.
Definition fsub : float -> float -> float := SFsub prec emax.
Definition fmul : float -> float -> float := SFmul prec emax.
Definition fdiv : float -> float -> float := SFdiv prec emax.

(** The float nearest to an integer (ties to even). *)
Definition of_Z (z : Z) : float := binary_normalize prec emax z 0 false.

Definition is_nan (x : float) : bool :=
  match x with S754_nan => true | _ => false end.

(** ** Exceptions *)

Inductive exn : Set :=
| AttributeError | IndexError | KeyError | ValueError | OverflowError
| RuntimeError.

Inductive py (A : Type) : Type :=
| Return (a : A)
| Raise (e : exn).

Arguments Return {A} a.
Arguments Raise {A} e.

Definition bind {A B : Type} (c : py A) (k : A -> py B) : py B :=
  match c with
  | Return a => k a
  | Raise e => Raise e
  end.

Declare Scope py_scope.
Delimit Scope py_scope with py.
Notation "x <- c ;; k" := (bind c (fun x => k))
  (at level 100, c at next level, right associativity) : py_scope.
Notation "' p <- c ;; k" := (bind c (fun p => k))
  (at level 100, p pattern, c at next level, right associativity) : py_scope.
Local Open Scope py_scope.

(** [try: body except: handler], with the bare [except:] of the source,
    which catches every exception. *)
Definition try_except {A : Type} (body handler : py A) : py A :=
  match body with
  | Return a => Return a
  | Raise _ => handler
  end.

(** An [int] operand of a float operation is converted to the nearest float;
    an integer beyond the float range raises [OverflowError]. *)
Definition float_of_int (z : Z) : py float :=
  match of_Z z with
  | S754_infinity _ => Raise OverflowError
  | f => Return f
  end.

(** ** Lists, ranges and dicts *)

Definition len {A : Type} (l : list A) : Z := Z.of_nat (List.length l).

(** [l[i]] for a non-negative index. *)
Definition list_getitem {A : Type} (l : list A) (i : nat) : py A :=
  match nth_error l i with
  | Some a => Return a
  | None => Raise IndexError
  end.

Fixpoint range_from (start : Z) (count : nat) : list Z :=
  match count with
  | O => []
  | S k => start :: range_from (start + 1) k
  end.

(** [range(start, stop)]. *)
Definition py_range (start stop : Z) : list Z :=
  range_from start (Z.to_nat (stop - start)).

Definition dict (V : Type) : Type := list (string * V).

Definition keys {V : Type} (d : dict V) : list string := map fst d.
Definition values {K V : Type} (d : list (K * V)) : list V := map snd d.

Fixpoint dict_get {V : Type} (d : dict V) (k : string) : option V :=
  match d with
  | [] => None
  | (k', v) :: rest => if String.eqb k' k then Some v else dict_get rest k
  end.


(** [d[k] = v]: an existing key keeps its place, a new key goes last. *)
Fixpoint dict_setitem {V : Type} (d : dict V) (k : string) (v : V) : dict V :=
  match d with
  | [] => [(k, v)]
  | (k', v') :: rest =>
      if String.eqb k' k then (k', v) :: rest
      else (k', v') :: dict_setitem rest k v
  end.

(** ** Data *)

(** A feature matrix is a list of frames, a frame a list of feature values;
    [lengths] gives the frame count of each sequence in it. *)
Definition FeatureMatrix : Type := list (list float).
Definition Xlengths : Type := (FeatureMatrix * list Z)%type.

(** ** The libraries the code calls *)

(** [hmm_fit n seed X lengths] is
    [GaussianHMM(n_components=n, covariance_type="diag", n_iter=1000,
    random_state=seed, verbose=False).fit(X, lengths)]: the fitted parameters,
    or the exception it raises.  It is a function: a fit is determined by its
    inputs and its seed.  [hmm_score] is the log-likelihood [model.score]
    returns, or the exception it raises.  [np_log] is [np.log] on a row count
    and [np_sum] the float sum that [np.mean] divides by the element count. *)
Class Libraries : Type := {
  Params : Type;
  hmm_fit : Z -> Z -> FeatureMatrix -> list Z -> py Params;
  hmm_score : Params -> FeatureMatrix -> list Z -> py float;
  np_log : Z -> float;
  np_sum : list float -> float;
  np_sum_empty : np_sum [] = zero
}.

(** [np.mean]: the sum divided by the count; on an empty list that is
    [0.0 / 0], a NaN (numpy warns and does not raise). *)
Definition np_mean {L : Libraries} (a : list float) : float :=
  fdiv (np_sum a) (of_Z (len a)).

(** A fitted model: the constructor's arguments and what [fit] learnt. *)
Record GaussianHMM {L : Libraries} : Type := {
  n_components : Z;
  hmm_random_state : Z;
  fitted : Params
}.

(** [GaussianHMM(n_components=num_states, ..., random_state=seed).fit(X, lengths)];
    [fit] returns the model itself. *)
Definition GaussianHMM_fit {L : Libraries} (num_states seed : Z)
    (X : FeatureMatrix) (lengths : list Z) : py GaussianHMM :=
  p <- hmm_fit num_states seed X lengths ;;
  Return {| n_components := num_states; hmm_random_state := seed; fitted := p |}.

(** [model.score(X, lengths)] where [model] is a Python value that may be
    [None]. *)
Definition score {L : Libraries} (model : option GaussianHMM)
    (X : FeatureMatrix) (lengths : list Z) : py float :=
  match model with
  | None => Raise AttributeError
  | Some m => hmm_score (fitted m) X lengths
  end.

(** ** [class ModelSelector] *)

Definition Sequences : Type := list FeatureMatrix.

(** The attributes [__init__] sets. *)
Record ModelSelector : Type := {
  words : dict Sequences;
  hwords : dict Xlengths;
  sequences : Sequences;
  X : FeatureMatrix;
  lengths : list Z;
  this_word : string;
  n_constant : Z;
  min_n_components : Z;
  max_n_components : Z;
  random_state : Z;
  verbose : bool
}.


(** [ModelSelector.select] *)
Definition ModelSelector_select {L : Libraries} (self : ModelSelector)
    : py (option GaussianHMM) :=
  Return None.

(** [ModelSelector.base_model]: the fit on the word's whole data; whatever
    the fit raises is caught and [None] is returned.  With [verbose] set the
    method also prints a line, which no returned value depends on. *)
Definition base_model {L : Libraries} (self : ModelSelector) (num_states : Z)
    : py (option GaussianHMM) :=
  try_except
    (hmm_model <- GaussianHMM_fit num_states (random_state self)
                    (X self) (lengths self) ;;
     Return (Some hmm_model))
    (Return None).

(** ** [class SelectorConstant] *)

Definition SelectorConstant_select {L : Libraries} (self : ModelSelector)
    : py (option GaussianHMM) :=
  let best_num_components := n_constant self in
  base_model self best_num_components.

(** ** [class SelectorBIC] *)

Definition SelectorBIC_score {L : Libraries} (self : ModelSelector)
    (num_states : Z) : py (float * option GaussianHMM) :=
  model <- base_model self num_states ;;
  logL <- score model (X self) (lengths self) ;;
  let logN := np_log (len (X self)) in
  X0 <- list_getitem (X self) 0 ;;
  let p := num_states ^ 2 + 2 * (len X0 * num_states) - 1 in
  pf <- float_of_int p ;;
  Return (fadd (fmul (of_Z (-2)) logL) (fmul pf logN), model).

(** The [for] loop over the candidate state counts, from the best found so
    far. *)
Fixpoint SelectorBIC_loop {L : Libraries} (self : ModelSelector)
    (candidates : list Z) (best_score : float)
    (best_model : option GaussianHMM) : py (option GaussianHMM) :=
  match candidates with
  | [] => Return best_model
  | num_states :: rest =>
      sm <- SelectorBIC_score self num_states ;;
      if flt (fst sm) best_score
      then SelectorBIC_loop self rest (fst sm) (snd sm)
      else SelectorBIC_loop self rest best_score best_model
  end.

(** [range(self.min_n_components, self.max_n_components+1)] *)
Definition SelectorBIC_candidates (self : ModelSelector) : list Z :=
  py_range (min_n_components self) (max_n_components self + 1).

Definition SelectorBIC_select {L : Libraries} (self : ModelSelector)
    : py (option GaussianHMM) :=
  try_except
    (SelectorBIC_loop self (SelectorBIC_candidates self) inf None)
    (base_model self (n_constant self)).

(** ** [class SelectorDIC] *)

(** The inner loop over [self.hwords.items()]: the candidate's score on
    every word but the target, appended to [mean_score_array]. *)
Fixpoint SelectorDIC_others {L : Libraries} (self : ModelSelector)
    (model : option GaussianHMM) (items : dict Xlengths)
    (mean_score_array : list float) : py (list float) :=
  match items with
  | [] => Return mean_score_array
  | (word, (X', lengths')) :: rest =>
      if negb (String.eqb word (this_word self))
      then s <- score model X' lengths' ;;
           SelectorDIC_others self model rest (mean_score_array ++ [s])
      else SelectorDIC_others self model rest mean_score_array
  end.

(** The body of the outer loop up to the comparison: the candidate and its
    score. *)
Definition SelectorDIC_score {L : Libraries} (self : ModelSelector)
    (num_states : Z) : py (float * option GaussianHMM) :=
  model <- base_model self num_states ;;
  mean_score_array <- SelectorDIC_others self model (hwords self) [] ;;
  let mean := np_mean mean_score_array in
  own <- score model (X self) (lengths self) ;;
  Return (fsub own mean, model).

Fixpoint SelectorDIC_loop {L : Libraries} (self : ModelSelector)
    (candidates : list Z) (best_score : float)
    (best_model : option GaussianHMM) : py (option GaussianHMM) :=
  match candidates with
  | [] => Return best_model
  | num_states :: rest =>
      sm <- SelectorDIC_score self num_states ;;
      if fgt (fst sm) best_score
      then SelectorDIC_loop self rest (fst sm) (snd sm)
      else SelectorDIC_loop self rest best_score best_model
  end.

(** [range(self.min_n_components, self.max_n_components)] *)
Definition SelectorDIC_candidates (self : ModelSelector) : list Z :=
  py_range (min_n_components self) (max_n_components self).

Definition SelectorDIC_select {L : Libraries} (self : ModelSelector)
    : py (option GaussianHMM) :=
  try_except
    (SelectorDIC_loop self (SelectorDIC_candidates self) neg_inf None)
    (base_model self (n_constant self)).

(** ** [class SelectorCV] *)

(** [KFold(n_splits=2).split(...)] on [n_samples] samples, without
    shuffling: the test folds are the first [n // 2 + n % 2] indices and the
    rest, each paired with the other indices as its training fold (train
    first, as [split] yields them).  Fewer samples than splits is a
    [ValueError]. *)
Definition KFold_split (n_samples : nat) : py (list (list nat * list nat)) :=
  if (n_samples <? 2)%nat then Raise ValueError
  else
    let first := (n_samples / 2 + n_samples mod 2)%nat in
    let fold0 := seq 0 first in
    let fold1 := seq first (n_samples - first) in
    Return [(fold1, fold0); (fold0, fold1)].

Fixpoint getitems {A : Type} (l : list A) (idx : list nat) : py (list A) :=
  match idx with
  | [] => Return []
  | i :: rest =>
      a <- list_getitem l i ;;
      r <- getitems l rest ;;
      Return (a :: r)
  end.

(** Modelled from the spec: [asl_utils.combine_sequences] is not among the
    sources; it is "a pure function: given fold indices and a word's
    sequences, produce a concatenated feature matrix and per-sequence length
    list". *)
Definition combine_sequences (split_index_list : list nat)
    (sequences : Sequences) : py Xlengths :=
  sequences_fold <- getitems sequences split_index_list ;;
  Return (List.concat sequences_fold, map len sequences_fold).

(** The loop of [SelectorCV.score] over the folds. *)
Fixpoint SelectorCV_folds {L : Libraries} (self : ModelSelector)
    (num_states : Z) (folds : list (list nat * list nat))
    (scores : list float) : py (list float) :=
  match folds with
  | [] => Return scores
  | (cv_train_idx, cv_test_idx) :: rest =>
      train <- combine_sequences cv_train_idx (sequences self) ;;
      model <- GaussianHMM_fit num_states (random_state self)
                 (fst train) (snd train) ;;
      test <- combine_sequences cv_test_idx (sequences self) ;;
      s <- score (Some model) (fst test) (snd test) ;;
      SelectorCV_folds self num_states rest (scores ++ [s])
  end.

Definition SelectorCV_score {L : Libraries} (self : ModelSelector)
    (num_states : Z) : py float :=
  folds <- KFold_split (List.length (sequences self)) ;;
  scores <- SelectorCV_folds self num_states folds [] ;;
  Return (np_mean scores).

Fixpoint SelectorCV_loop {L : Libraries} (self : ModelSelector)
    (candidates : list Z) (best_score : float) (best_states : Z) : py Z :=
  match candidates with
  | [] => Return best_states
  | num_states :: rest =>
      s <- SelectorCV_score self num_states ;;
      if fgt s best_score
      then SelectorCV_loop self rest s num_states
      else SelectorCV_loop self rest best_score best_states
  end.

(** [range(self.min_n_components, self.max_n_components+1)] *)
Definition SelectorCV_candidates (self : ModelSelector) : list Z :=
  py_range (min_n_components self) (max_n_components self + 1).

Definition SelectorCV_select {L : Libraries} (self : ModelSelector)
    : py (option GaussianHMM) :=
  let best_score := neg_inf in
  let best_states := 3 in
  try_except
    (best_states' <- SelectorCV_loop self (SelectorCV_candidates self)
        best_score best_states ;;
     base_model self best_states')
    (base_model self (n_constant self)).

(** The four strategies, and the [select] each class defines. *)
Inductive Selector : Set :=
  SelectorConstant | SelectorBIC | SelectorDIC | SelectorCV.

Definition select {L : Libraries} (cls : Selector) (self : ModelSelector)
    : py (option GaussianHMM) :=
  match cls with
  | SelectorConstant => SelectorConstant_select self
  | SelectorBIC => SelectorBIC_select self
  | SelectorDIC => SelectorDIC_select self
  | SelectorCV => SelectorCV_select self
  end.

(** ** The process-wide warnings filters *)

Inductive warning_action : Set := ignore | error | always | default | once.
Inductive warning_category : Set :=
  Warning | UserWarning | DeprecationWarning | RuntimeWarning.

(** An entry of [warnings.filters]:
    [(action, message, category, module, lineno)]. *)
Record warning_filter : Set := {
  action : warning_action;
  message : option string;
  category : warning_category;
  module_name : option string;
  lineno : Z
}.

Definition warning_action_eqb (a b : warning_action) : bool :=
  match a, b with
  | ignore, ignore | error, error | always, always
  | default, default | once, once => true
  | _, _ => false
  end.

Definition warning_category_eqb (a b : warning_category) : bool :=
  match a, b with
  | Warning, Warning | UserWarning, UserWarning
  | DeprecationWarning, DeprecationWarning
  | RuntimeWarning, RuntimeWarning => true
  | _, _ => false
  end.

Definition option_string_eqb (a b : option string) : bool :=
  match a, b with
  | None, None => true
  | Some x, Some y => String.eqb x y
  | _, _ => false
  end.

Definition warning_filter_eqb (f g : warning_filter) : bool :=
  warning_action_eqb (action f) (action g)
  && option_string_eqb (message f) (message g)
  && warning_category_eqb (category f) (category g)
  && option_string_eqb (module_name f) (module_name g)
  && (lineno f =? lineno g).

(** [list.remove]: drops the first occurrence, if any. *)
Fixpoint remove_first (item : warning_filter) (filters : list warning_filter)
    : list warning_filter :=
  match filters with
  | [] => []
  | f :: rest =>
      if warning_filter_eqb f item then rest else f :: remove_first item rest
  end.

(** [warnings.filterwarnings(action, category=category)]: the entry is moved
    or put at the front of the filters. *)
Definition filterwarnings (a : warning_action) (c : warning_category)
    (filters : list warning_filter) : list warning_filter :=
  let item := {| action := a; message := None; category := c;
                 module_name := None; lineno := 0 |} in
  item :: remove_first item filters.

(** ** [my_recognizer.recognize] *)

(** Modelled from the spec: [asl_data.SinglesData] is not among the sources;
    the test set is an "ordered set of (featureMatrix, lengths) per test
    item", which [get_all_Xlengths] returns as a dict keyed by the item's
    index. *)
Definition SinglesData : Type := list (Z * Xlengths).
Definition get_all_Xlengths (test_set : SinglesData) : list (Z * Xlengths) :=
  test_set.

(** The state of the loop over [models.items()]. *)
Record word_loop_state : Type := {
  word_probabilities : dict float;
  best_score : float;
  best_guess : option string
}.

(** One pass of the inner loop body: the [try] scores the word, stores the
    score and updates the best; the [except] stores minus infinity. *)
Definition recognize_word {L : Libraries} (X : FeatureMatrix) (lengths : list Z)
    (st : word_loop_state) (train_word : string)
    (model : option GaussianHMM) : word_loop_state :=
  match score model X lengths with
  | Return s =>
      let wp := dict_setitem (word_probabilities st) train_word s in
      if fgt s (best_score st)
      then {| word_probabilities := wp; best_score := s;
              best_guess := Some train_word |}
      else {| word_probabilities := wp; best_score := best_score st;
              best_guess := best_guess st |}
  | Raise _ =>
      {| word_probabilities :=
           dict_setitem (word_probabilities st) train_word neg_inf;
         best_score := best_score st; best_guess := best_guess st |}
  end.

Fixpoint recognize_words {L : Libraries} (X : FeatureMatrix) (lengths : list Z)
    (items : dict (option GaussianHMM)) (st : word_loop_state)
    : word_loop_state :=
  match items with
  | [] => st
  | (train_word, model) :: rest =>
      recognize_words X lengths rest
        (recognize_word X lengths st train_word model)
  end.

(** The body of the outer loop for one test item. *)
Definition recognize_item {L : Libraries} (models : dict (option GaussianHMM))
    (item : Xlengths) : word_loop_state :=
  recognize_words (fst item) (snd item) models
    {| word_probabilities := []; best_score := neg_inf; best_guess := None |}.

Fixpoint recognize_loop {L : Libraries} (models : dict (option GaussianHMM))
    (items : list Xlengths) (probabilities : list (dict float))
    (guesses : list (option string))
    : list (dict float) * list (option string) :=
  match items with
  | [] => (probabilities, guesses)
  | item :: rest =>
      let st := recognize_item models item in
      let guesses' := guesses ++ [best_guess st] in
      let probabilities' := probabilities ++ [word_probabilities st] in
      recognize_loop models rest probabilities' guesses'
  end.

(** [recognize(models, test_set)], run with the warnings filters [filters]:
    the returned pair and the filters it leaves. *)
Definition recognize {L : Libraries} (models : dict (option GaussianHMM))
    (test_set : SinglesData) (filters : list warning_filter)
    : (list (dict float) * list (option string)) * list warning_filter :=
  let filters' := filterwarnings ignore DeprecationWarning filters in
  let probabilities := [] in
  let guesses := [] in
  (recognize_loop models (values (get_all_Xlengths test_set))
     probabilities guesses,
   filters').

(** ** The criteria, in the specification's words *)

(** [p = numStates² + 2 * numFeatures * numStates - 1] *)
Definition free_parameters (numStates numFeatures : Z) : Z :=
  numStates ^ 2 + 2 * numFeatures * numStates - 1.

(** [BIC = -2 * logL + p * log(N)] *)
Definition BIC (logL p logN : float) : float :=
  fadd (fmul (of_Z (-2)) logL) (fmul p logN).

(** The fit at [n] states on the word's whole data succeeds with model [m],
    [m] scores that data, and [s] is the BIC of the result: [N] is the frame
    count and the feature count is the width of the first frame. *)
Definition BIC_candidate {L : Libraries} (self : ModelSelector) (n : Z)
    (m : GaussianHMM) (s : float) : Prop :=
  exists logL X0 p,
    GaussianHMM_fit n (random_state self) (X self) (lengths self) = Return m
    /\ score (Some m) (X self) (lengths self) = Return logL
    /\ nth_error (X self) 0 = Some X0
    /\ float_of_int (free_parameters n (len X0)) = Return p
    /\ s = BIC logL p (np_log (len (X self))).

(** The entries of the vocabulary mapping for the other words. *)
Definition other_words (self : ModelSelector) : dict Xlengths :=
  filter (fun e => negb (String.eqb (fst e) (this_word self))) (hwords self).

(** The fit at [n] states succeeds with model [m], [m] scores the word's own
    data and every other word's data, and [s] is
    [DIC = logL(word) - mean(logL(other_word))]. *)
Definition DIC_candidate {L : Libraries} (self : ModelSelector) (n : Z)
    (m : GaussianHMM) (s : float) : Prop :=
  exists own others,
    GaussianHMM_fit n (random_state self) (X self) (lengths self) = Return m
    /\ score (Some m) (X self) (lengths self) = Return own
    /\ Forall2 (fun e o => score (Some m) (fst (snd e)) (snd (snd e)) = Return o)
         (other_words self) others
    /\ s = fsub own (np_mean others).

(** A model fit at [n] states on the sequences [train], scored on the
    sequences [test]. *)
Definition held_out {L : Libraries} (self : ModelSelector) (n : Z)
    (train test : Sequences) : py float :=
  model <- GaussianHMM_fit n (random_state self)
             (List.concat train) (map len train) ;;
  score (Some model) (List.concat test) (map len test).

(** [s] is the mean held-out log-likelihood at [n] states over the two
    folds of the word's sequences: the first half (the longer one when the
    count is odd) and the rest. *)
Definition CV_candidate {L : Libraries} (self : ModelSelector) (n : Z)
    (s : float) : Prop :=
  let seqs := sequences self in
  let k := (List.length seqs / 2 + List.length seqs mod 2)%nat in
  exists s0 s1,
    (2 <= List.length seqs)%nat
    /\ held_out self n (skipn k seqs) (firstn k seqs) = Return s0
    /\ held_out self n (firstn k seqs) (skipn k seqs) = Return s1
    /\ s = np_mean [s0; s1].

(** Some fit made for candidate [n] raises: for BIC and DIC the fit on the
    word's data, for CV the fit on the training part of a fold. *)
Definition candidate_fit_fails {L : Libraries} (cls : Selector)
    (self : ModelSelector) (n : Z) : Prop :=
  match cls with
  | SelectorConstant => False
  | SelectorBIC =>
      In n (SelectorBIC_candidates self) /\
      exists e, hmm_fit n (random_state self) (X self) (lengths self) = Raise e
  | SelectorDIC =>
      In n (SelectorDIC_candidates self) /\
      exists e, hmm_fit n (random_state self) (X self) (lengths self) = Raise e
  | SelectorCV =>
      In n (SelectorCV_candidates self) /\
      exists folds tr te Xl e,
        KFold_split (List.length (sequences self)) = Return folds
        /\ In (tr, te) folds
        /\ combine_sequences tr (sequences self) = Return Xl
        /\ hmm_fit n (random_state self) (fst Xl) (snd Xl) = Raise e
  end.

(** ** Closed inputs for the examples *)

(** A stand-in for the libraries driven by two tables: [fit_ok n X] tells
    whether the fit at [n] states on [X] converges and [loglik n X] is what a
    model of [n] states answers on [X].  Its logarithm is exact at 0 and 1 and
    coarse elsewhere; its sum adds from the left, as numpy does on short
    lists. *)
Definition table_libraries (fit_ok : Z -> FeatureMatrix -> bool)
    (loglik : Z -> FeatureMatrix -> py float) : Libraries :=
  {| Params := Z;
     hmm_fit := fun n _ X _ => if fit_ok n X then Return n else Raise ValueError;
     hmm_score := fun p X _ => loglik p X;
     np_log := fun N =>
       if N <=? 0 then neg_inf else if N =? 1 then zero else of_Z (Z.log2 N);
     np_sum := fun a => fold_left fadd a zero;
     np_sum_empty := eq_refl |}.

Definition frame (v : Z) : list float := [of_Z v].

(** The dict of feature matrices [build_training] derives from the dict of
    sequences. *)
Definition Xlengths_of (all_word_sequences : dict Sequences) : dict Xlengths :=
  map (fun e => (fst e, (List.concat (snd e), map len (snd e))))
    all_word_sequences.

(** A selector for "WORD1" with the given sequences, in a vocabulary with the
    given other words. *)
Definition selector_for (seqs : Sequences) (others : dict Sequences)
    (n_const min_n max_n : Z) : ModelSelector :=
  let all_word_sequences := ("WORD1"%string, seqs) :: others in
  {| words := all_word_sequences;
     hwords := Xlengths_of all_word_sequences;
     sequences := seqs;
     X := List.concat seqs;
     lengths := map len seqs;
     this_word := "WORD1"%string;
     n_constant := n_const;
     min_n_components := min_n;
     max_n_components := max_n;
     random_state := 14;
     verbose := false |}.

Definition fits_always (_ : Z) (_ : FeatureMatrix) : bool := true.

(** A model of [n] states as the table-driven fit returns it. *)
Definition table_model (fit_ok : Z -> FeatureMatrix -> bool)
    (loglik : Z -> FeatureMatrix -> py float) (n : Z)
    : @GaussianHMM (table_libraries fit_ok loglik) :=
  @Build_GaussianHMM (table_libraries fit_ok loglik) n 14 n.

Definition one_sequence : Sequences := [[frame 0]].
Definition two_sequences : Sequences := [[frame 0]; [frame 1]].

(** Log-likelihoods -60, -47.5 and -55 at 2, 3 and 4 states: on one frame
    the BIC scores are 120, 95 and 110. *)
Definition loglik_bic (n : Z) (_ : FeatureMatrix) : py float :=
  Return (match n with
          | 2 => of_Z (-60)
          | 3 => fdiv (of_Z (-95)) (of_Z 2)
          | _ => of_Z (-55)
          end).

(** Log-likelihoods that depend on the state count on one frame and are -20
    on anything longer. *)
Definition loglik_dic (n : Z) (X : FeatureMatrix) : py float :=
  Return (if len X =? 1
          then match n with 2 => of_Z (-10) | 3 => of_Z (-5) | _ => of_Z (-7) end
          else of_Z (-20)).

Definition loglik_const (v : float) (_ : Z) (_ : FeatureMatrix) : py float :=
  Return v.

Definition loglik_raises (_ : Z) (_ : FeatureMatrix) : py float :=
  Raise ValueError.

Definition fits_except (bad : Z) (n : Z) (_ : FeatureMatrix) : bool :=
  negb (n =? bad).

Definition lib_bic : Libraries := table_libraries fits_always loglik_bic.
Definition lib_dic : Libraries := table_libraries fits_always loglik_dic.
Definition lib_neg_inf : Libraries :=
  table_libraries fits_always (loglik_const neg_inf).
Definition lib_nan : Libraries :=
  table_libraries fits_always (loglik_const nan).
Definition lib_score_raises : Libraries :=
  table_libraries fits_always loglik_raises.
Definition lib_fit_fails_3 : Libraries :=
  table_libraries (fits_except 3) loglik_bic.

(** One word, one sequence of one frame, the default configuration but for
    [max_n_components = 4]. *)
Definition sel_one_word : ModelSelector := selector_for one_sequence [] 3 2 4.

(** The same word in a vocabulary of two. *)
Definition sel_two_words : ModelSelector :=
  selector_for one_sequence [("WORD2"%string, [[frame 1; frame 2]])] 3 2 5.

(** A word with two sequences. *)
Definition sel_two_sequences : ModelSelector :=
  selector_for two_sequences [] 3 2 4.

(** Two sequences, candidates 4 to 6 and [n_constant = 5]. *)
Definition sel_high_range : ModelSelector :=
  selector_for two_sequences [] 5 4 6.

(** One sequence, [n_constant = 2] and the empty range from 5 to 4. *)
Definition sel_empty_range : ModelSelector :=
  selector_for one_sequence [] 2 5 4.


(** A word whose sequences hold no frame at all. *)
Definition sel_no_frames : ModelSelector := selector_for [[]] [] 3 2 4.

(** A second test set, of two items. *)
Definition two_items : SinglesData :=
  [(1, ([frame 1], [1])); (2, ([frame 2; frame 3], [2]))].

(** Two word models and a test set of one item, for the recogniser. *)
Definition two_models (fit_ok : Z -> FeatureMatrix -> bool)
    (loglik : Z -> FeatureMatrix -> py float)
    : dict (option (@GaussianHMM (table_libraries fit_ok loglik))) :=
  [("WORD1"%string, Some (table_model fit_ok loglik 2));
   ("WORD2"%string, Some (table_model fit_ok loglik 3))].

Definition one_item : SinglesData := [(0, ([frame 0], [1]))].

(** A model of two states answers -1000 and one of three states -500. *)
Definition loglik_words (n : Z) (_ : FeatureMatrix) : py float :=
  Return (if n =? 2 then of_Z (-1000) else of_Z (-500)).

(** A model of two states raises and one of three states answers -500. *)
Definition loglik_word1_raises (n : Z) (_ : FeatureMatrix) : py float :=
  if n =? 2 then Raise ValueError else Return (of_Z (-500)).

(** ** The search the three selectors share

    Each selector walks its candidates keeping the best score so far and
    what goes with it (a model, or a state count), replacing both when the
    new score is strictly [better]; an exception ends the walk. *)
Section Search.
Context {A : Type}.
Variable better : float -> float -> bool.
Variable score_fn : Z -> py (float * A).

Fixpoint search (candidates : list Z) (best_score : float) (best : A)
    : py (float * A) :=
  match candidates with
  | [] => Return (best_score, best)
  | n :: rest =>
      sa <- score_fn n ;;
      if better (fst sa) best_score
      then search rest (fst sa) (snd sa)
      else search rest best_score best
  end.
End Search.

(** * Properties *)

(** ** Float comparisons *)

Ltac cmp_cases :=
  repeat match goal with
  | |- context [Z.compare ?a ?b] => destruct (Z.compare_spec a b)
  | |- context [Pos.compare_cont Eq ?a ?b] =>
      change (Pos.compare_cont Eq a b) with (Pos.compare a b);
      destruct (Pos.compare_spec a b)
  end.

Ltac float_cases x := destruct x as [[|]|[|]| |[|] ? ?].

Ltac float_order :=
  unfold is_nan, fgt, fge, flt, fle, SFleb, SFltb, SFcompare;
  repeat match goal with x : float |- _ => revert x end;
  repeat (let x := fresh "x" in intro x; float_cases x);
  try discriminate; try reflexivity; try congruence;
  cmp_cases; simpl; try discriminate; try reflexivity;
  try congruence; intros; subst; lia.

Lemma flt_irrefl (x : float) : flt x x = false.
Proof.
  unfold flt, SFltb, SFcompare.
  float_cases x; try reflexivity;
    rewrite Z.compare_refl; change (Pos.compare_cont Eq m m) with (Pos.compare m m);
    rewrite Pos.compare_refl; reflexivity.
Qed.

Lemma flt_trans (x y z : float) :
  flt x y = true -> flt y z = true -> flt x z = true.
Proof. float_order. Qed.

Lemma fle_flt_trans (x y z : float) :
  fle x y = true -> flt y z = true -> flt x z = true.
Proof. float_order. Qed.

Lemma flt_fle_trans (x y z : float) :
  flt x y = true -> fle y z = true -> flt x z = true.
Proof. float_order. Qed.

Lemma flt_fle (x y : float) : flt x y = true -> fle x y = true.
Proof. float_order. Qed.

(** Without a NaN the order is total: not below means at least. *)
Lemma flt_false_fle (x y : float) :
  is_nan x = false -> is_nan y = false -> flt x y = false -> fle y x = true.
Proof. float_order. Qed.

Lemma flt_nan_l (x : float) : flt nan x = false.
Proof. reflexivity. Qed.

Lemma flt_nan_r (x : float) : flt x nan = false.
Proof. destruct x; reflexivity. Qed.

Lemma fsub_nan_r (x : float) : fsub x nan = nan.
Proof. destruct x; reflexivity. Qed.

Lemma np_mean_empty {L : Libraries} : np_mean [] = nan.
Proof. unfold np_mean. rewrite np_sum_empty. reflexivity. Qed.

(** ** Exceptions *)

Lemma bind_Return_inv {A B : Type} (c : py A) (k : A -> py B) (b : B) :
  bind c k = Return b -> exists a, c = Return a /\ k a = Return b.
Proof. destruct c as [a|e]; simpl; [eauto | discriminate]. Qed.

Lemma bind_Raise_l {A B : Type} (c : py A) (k : A -> py B) (e : exn) :
  c = Raise e -> bind c k = Raise e.
Proof. intros ->. reflexivity. Qed.

(** ** Ranges *)

Lemma In_range_from (n start : Z) (count : nat) :
  In n (range_from start count) <-> start <= n < start + Z.of_nat count.
Proof.
  revert start. induction count as [|k IH]; intros start; simpl.
  - lia.
  - rewrite IH. lia.
Qed.

Lemma In_py_range (n start stop : Z) :
  In n (py_range start stop) <-> start <= n < stop.
Proof. unfold py_range. rewrite In_range_from. lia. Qed.

(** A range is increasing: what precedes an element is below it, what
    follows is above. *)
Lemma range_from_split (start : Z) (count : nat) (pre post : list Z) (n : Z) :
  range_from start count = pre ++ n :: post ->
  (forall k, In k pre -> k < n) /\ (forall k, In k post -> n < k).
Proof.
  revert start count. induction pre as [|a pre IH]; intros start count Heq.
  - destruct count as [|c]; [discriminate|]. simpl in Heq.
    injection Heq as <- <-. split; [intros k []|].
    intros k Hk. apply In_range_from in Hk. lia.
  - destruct count as [|c]; [discriminate|]. simpl in Heq.
    injection Heq as <- Heq. destruct (IH _ _ Heq) as [Hpre Hpost].
    split; [|exact Hpost].
    intros k [<-|Hk]; [|auto].
    assert (Hn : In n (range_from (start + 1) c))
      by (rewrite Heq; apply in_or_app; right; left; reflexivity).
    apply In_range_from in Hn. lia.
Qed.

Lemma py_range_split (start stop : Z) (pre post : list Z) (n : Z) :
  py_range start stop = pre ++ n :: post ->
  start <= n < stop
  /\ (forall k, start <= k < n -> In k pre)
  /\ (forall k, In k pre -> start <= k < n).
Proof.
  intros Heq.
  assert (Hin : forall k, In k (pre ++ n :: post) <-> start <= k < stop)
    by (intros k; rewrite <- Heq; apply In_py_range).
  destruct (range_from_split _ _ _ _ _ Heq) as [Hpre Hpost].
  assert (Hn : start <= n < stop)
    by (apply Hin, in_or_app; right; left; reflexivity).
  split; [exact Hn|]. split.
  - intros k Hk.
    assert (Hk' : In k (pre ++ n :: post)) by (apply Hin; lia).
    apply in_app_or in Hk'. destruct Hk' as [Hk'|[Hk'|Hk']]; [exact Hk'|lia|].
    apply Hpost in Hk'. lia.
  - intros k Hk. specialize (Hpre k Hk).
    assert (Hk' : In k (pre ++ n :: post)) by (apply in_or_app; left; exact Hk).
    apply Hin in Hk'. lia.
Qed.

(** ** The shared search *)

Section SearchFacts.
Context {A : Type}.
Variables better beq : float -> float -> bool.
Variable score_fn : Z -> py (float * A).

Hypothesis better_irrefl : forall a, better a a = false.
Hypothesis better_trans :
  forall a b c, better a b = true -> better b c = true -> better a c = true.
Hypothesis beq_better_trans :
  forall a b c, beq a b = true -> better b c = true -> better a c = true.

Let run := search better score_fn.

(** A candidate whose score raises ends the search with an exception. *)
Lemma search_raises (candidates : list Z) (n : Z) (e : exn) :
  In n candidates -> score_fn n = Raise e ->
  forall best_score best,
    exists e', run candidates best_score best = Raise e'.
Proof.
  unfold run. induction candidates as [|c rest IH]; intros Hin Hn bs b;
    [destruct Hin|].
  simpl. destruct (score_fn c) as [[s a]|e0] eqn:Hc; simpl; [|eauto].
  destruct Hin as [->|Hin]; [congruence|].
  destruct (better s bs); apply IH; assumption.
Qed.

(** An exception comes from a candidate's score. *)
Lemma search_raise_inv (candidates : list Z) (best_score : float) (best : A)
    (e : exn) :
  run candidates best_score best = Raise e ->
  exists n, In n candidates /\ score_fn n = Raise e.
Proof.
  unfold run. revert best_score best.
  induction candidates as [|c rest IH]; intros bs b; simpl; [discriminate|].
  destruct (score_fn c) as [[s a]|e0] eqn:Hc; simpl.
  - destruct (better s bs); intros Hr; destruct (IH _ _ Hr) as (n & Hn & Hs);
      exists n; auto.
  - intros [= ->]. exists c. auto.
Qed.

(** What the search returns is what it started from or what some
    candidate's score returned. *)
Lemma search_Return_inv (candidates : list Z) (best_score : float) (best : A)
    (s : float) (a : A) :
  run candidates best_score best = Return (s, a) ->
  (s, a) = (best_score, best)
  \/ exists n, In n candidates /\ score_fn n = Return (s, a).
Proof.
  unfold run. revert best_score best.
  induction candidates as [|c rest IH]; intros bs b; simpl.
  - intros [= <- <-]. left. reflexivity.
  - destruct (score_fn c) as [[s0 a0]|e0] eqn:Hc; simpl; [|discriminate].
    destruct (better s0 bs); intros Hr;
      destruct (IH _ _ Hr) as [[= -> ->]|(n & Hn & Hs)]; eauto.
Qed.

(** When every candidate's score returns, the search returns either what
    it started from, no candidate being better than the initial score, or
    a candidate better than the initial score, than which no candidate is
    better and which no earlier candidate equals. *)
Lemma search_returns (candidates : list Z) :
  (forall n, In n candidates -> exists s a, score_fn n = Return (s, a)) ->
  forall best_score best,
    (run candidates best_score best = Return (best_score, best)
     /\ forall n s a, In n candidates -> score_fn n = Return (s, a) ->
                      better s best_score = false)
    \/ exists pre n post s a,
         candidates = pre ++ n :: post
         /\ score_fn n = Return (s, a)
         /\ run candidates best_score best = Return (s, a)
         /\ better s best_score = true
         /\ (forall k s' a', In k pre -> score_fn k = Return (s', a') ->
                             beq s' s = false)
         /\ (forall k s' a', In k candidates -> score_fn k = Return (s', a') ->
                             better s' s = false).
Proof.
  unfold run. induction candidates as [|c rest IH]; intros Hok bs b.
  - left. split; [reflexivity|]. intros n s a [].
  - destruct (Hok c (or_introl eq_refl)) as (s & a & Hc).
    assert (Hok' : forall n, In n rest -> exists s a, score_fn n = Return (s, a))
      by (intros n Hn; apply Hok; right; exact Hn).
    simpl. rewrite Hc. simpl.
    destruct (better s bs) eqn:Hb.
    + destruct (IH Hok' s a) as [[Hr Hall]|(pre & n & post & s1 & a1 & Heq & Hn & Hr & Hb1 & Hpre & Hall)].
      * right. exists [], c, rest, s, a. repeat split; auto.
        -- intros k s' a' [].
        -- intros k s' a' [<-|Hk] Hk'.
           ++ rewrite Hc in Hk'. injection Hk' as <- <-. apply better_irrefl.
           ++ eapply Hall; eauto.
      * right. exists (c :: pre), n, post, s1, a1. repeat split; auto.
        -- simpl. rewrite Heq. reflexivity.
        -- eapply better_trans; eauto.
        -- intros k s' a' [<-|Hk] Hk'; [|eapply Hpre; eauto].
           rewrite Hc in Hk'. injection Hk' as <- <-.
           destruct (beq s s1) eqn:Hq; [|reflexivity].
           pose proof (beq_better_trans _ _ _ Hq Hb1) as Hx.
           rewrite better_irrefl in Hx. discriminate.
        -- intros k s' a' [<-|Hk] Hk'; [|eapply Hall; eauto].
           rewrite Hc in Hk'. injection Hk' as <- <-.
           destruct (better s s1) eqn:Hq; [|reflexivity].
           pose proof (better_trans _ _ _ Hq Hb1) as Hx.
           rewrite better_irrefl in Hx. discriminate.
    + destruct (IH Hok' bs b) as [[Hr Hall]|(pre & n & post & s1 & a1 & Heq & Hn & Hr & Hb1 & Hpre & Hall)].
      * left. split; [exact Hr|].
        intros k s' a' [<-|Hk] Hk'; [|eapply Hall; eauto].
        rewrite Hc in Hk'. injection Hk' as <- <-. exact Hb.
      * right. exists (c :: pre), n, post, s1, a1. repeat split; auto.
        -- simpl. rewrite Heq. reflexivity.
        -- intros k s' a' [<-|Hk] Hk'; [|eapply Hpre; eauto].
           rewrite Hc in Hk'. injection Hk' as <- <-.
           destruct (beq s s1) eqn:Hq; [|reflexivity].
           rewrite (beq_better_trans _ _ _ Hq Hb1) in Hb. discriminate.
        -- intros k s' a' [<-|Hk] Hk'; [|eapply Hall; eauto].
           rewrite Hc in Hk'. injection Hk' as <- <-.
           destruct (better s s1) eqn:Hq; [|reflexivity].
           rewrite (better_trans _ _ _ Hq Hb1) in Hb. discriminate.
Qed.
End SearchFacts.

(** ** The fit on the whole word *)

Section BaseModel.
Context {L : Libraries}.
Variable self : ModelSelector.

Lemma GaussianHMM_fit_n_components (n seed : Z) (X' : FeatureMatrix)
    (l' : list Z) (m : GaussianHMM) :
  GaussianHMM_fit n seed X' l' = Return m -> n_components m = n.
Proof.
  unfold GaussianHMM_fit. destruct (hmm_fit n seed X' l'); simpl;
    [intros [= <-]; reflexivity | discriminate].
Qed.

Lemma GaussianHMM_fit_Raise (n seed : Z) (X' : FeatureMatrix) (l' : list Z)
    (e : exn) :
  GaussianHMM_fit n seed X' l' = Raise e <-> hmm_fit n seed X' l' = Raise e.
Proof.
  unfold GaussianHMM_fit. destruct (hmm_fit n seed X' l'); simpl;
    split; congruence.
Qed.

(** [base_model] never raises: it returns the fitted model, or [None] when
    the fit raises. *)
Lemma base_model_cases (n : Z) :
  (exists m, GaussianHMM_fit n (random_state self) (X self) (lengths self)
             = Return m
             /\ base_model self n = Return (Some m))
  \/ (exists e, hmm_fit n (random_state self) (X self) (lengths self)
                = Raise e
                /\ base_model self n = Return None).
Proof.
  unfold base_model.
  destruct (GaussianHMM_fit n (random_state self) (X self) (lengths self))
    as [m|e] eqn:Hfit; simpl.
  - left. eauto.
  - right. exists e. split; [apply GaussianHMM_fit_Raise; exact Hfit | reflexivity].
Qed.

Lemma base_model_returns (n : Z) : exists r, base_model self n = Return r.
Proof.
  destruct (base_model_cases n) as [(m & _ & ->)|(e & _ & ->)]; eauto.
Qed.

Lemma base_model_Some (n : Z) (m : GaussianHMM) :
  base_model self n = Return (Some m) <->
  GaussianHMM_fit n (random_state self) (X self) (lengths self) = Return m.
Proof.
  destruct (base_model_cases n) as [(m' & Hfit & Hb)|(e & Hfit & Hb)];
    rewrite Hb.
  - rewrite Hfit. split; congruence.
  - apply GaussianHMM_fit_Raise in Hfit. rewrite Hfit. split; discriminate.
Qed.

Lemma base_model_None (n : Z) :
  base_model self n = Return None <->
  exists e, hmm_fit n (random_state self) (X self) (lengths self) = Raise e.
Proof.
  destruct (base_model_cases n) as [(m' & Hfit & Hb)|(e & Hfit & Hb)];
    rewrite Hb.
  - split; [discriminate|]. intros (e & He).
    apply GaussianHMM_fit_Raise in He. congruence.
  - split; eauto.
Qed.

Lemma base_model_n_components (n : Z) (m : GaussianHMM) :
  base_model self n = Return (Some m) -> n_components m = n.
Proof.
  intros Hb. apply base_model_Some in Hb.
  eapply GaussianHMM_fit_n_components; eauto.
Qed.

(** ** BIC: the code's score is the specification's criterion *)

Lemma free_parameters_eq (n d : Z) :
  n ^ 2 + 2 * (d * n) - 1 = free_parameters n d.
Proof. unfold free_parameters. ring. Qed.

Lemma SelectorBIC_score_spec (n : Z) (s : float) (om : option GaussianHMM) :
  SelectorBIC_score self n = Return (s, om) <->
  exists m, om = Some m /\ BIC_candidate self n m s.
Proof.
  unfold SelectorBIC_score, BIC_candidate, list_getitem, BIC.
  destruct (base_model_cases n) as [(m & Hfit & ->)|(e & Hfit & ->)];
    cbn [bind score].
  - rewrite Hfit.
    destruct (hmm_score (fitted m) (X self) (lengths self)) as [logL|e]
      eqn:Hs; cbn [bind].
    + destruct (X self) as [|X0 rest] eqn:HX; cbn [bind nth_error].
      * split; [discriminate|].
        intros (m' & _ & logL' & X0 & p & _ & _ & H0 & _). discriminate.
      * rewrite free_parameters_eq.
        destruct (float_of_int (free_parameters n (len X0))) as [p|e] eqn:Hp;
          cbn [bind].
        -- split.
           ++ intros [= <- <-]. exists m. split; [reflexivity|].
              exists logL, X0, p. repeat split; auto.
           ++ intros (m' & -> & logL' & X0' & p' & [= <-] & Hs' & [= <-] & Hp' & ->).
              rewrite Hs in Hs'. injection Hs' as <-.
              rewrite Hp in Hp'. injection Hp' as <-. reflexivity.
        -- split; [discriminate|].
           intros (m' & _ & logL' & X0' & p' & _ & _ & [= <-] & Hp' & _).
           congruence.
    + split; [discriminate|].
      intros (m' & _ & logL' & X0' & p' & [= <-] & Hs' & _). congruence.
  - split; [discriminate|].
    intros (m' & _ & logL' & X0' & p' & Hf & _).
    apply GaussianHMM_fit_Raise in Hfit. congruence.
Qed.
End BaseModel.

Lemma flt_not_nan (x y : float) : flt x y = true -> is_nan x = false.
Proof. destruct x; try reflexivity. discriminate. Qed.

Lemma fgt_not_nan (x y : float) : fgt x y = true -> is_nan x = false.
Proof. unfold fgt. destruct x; try reflexivity. rewrite flt_nan_r. discriminate. Qed.

(** ** SelectorBIC *)

Section BIC.
Context {L : Libraries}.
Variable self : ModelSelector.

Lemma SelectorBIC_loop_search (candidates : list Z) (best_score : float)
    (best_model : option GaussianHMM) :
  SelectorBIC_loop self candidates best_score best_model =
  bind (search flt (SelectorBIC_score self) candidates best_score best_model)
       (fun r => Return (snd r)).
Proof.
  revert best_score best_model.
  induction candidates as [|n rest IH]; intros bs bm; simpl; [reflexivity|].
  destruct (SelectorBIC_score self n) as [[s m]|e]; simpl; [|reflexivity].
  destruct (flt s bs); apply IH.
Qed.

Lemma In_SelectorBIC_candidates (n : Z) :
  In n (SelectorBIC_candidates self) <->
  min_n_components self <= n <= max_n_components self.
Proof. unfold SelectorBIC_candidates. rewrite In_py_range. lia. Qed.

(** C1, amended.  When the fit and the score of every candidate in
    [[min_n_components, max_n_components]] succeed and some candidate's
    BIC = -2 * logL + p * log(N) is below plus infinity, [select] returns
    the model of the lowest state count whose BIC no candidate undercuts:
    no BIC in the range is below it, none at a lower state count equals
    it, and it is at most every BIC that is not a NaN.  When no BIC is
    below plus infinity, [select] returns [None]. *)
Theorem SelectorBIC_select_first_minimum :
  (forall n, min_n_components self <= n <= max_n_components self ->
             exists m s, BIC_candidate self n m s) ->
  (exists n m s,
      min_n_components self <= n <= max_n_components self
      /\ BIC_candidate self n m s
      /\ flt s inf = true
      /\ SelectorBIC_select self = Return (Some m)
      /\ n_components m = n
      /\ (forall k m' s',
            min_n_components self <= k <= max_n_components self ->
            BIC_candidate self k m' s' ->
            flt s' s = false /\ (is_nan s' = false -> fle s s' = true))
      /\ (forall k m' s',
            min_n_components self <= k < n ->
            BIC_candidate self k m' s' -> fle s' s = false))
  \/ (SelectorBIC_select self = Return None
      /\ forall k m' s',
           min_n_components self <= k <= max_n_components self ->
           BIC_candidate self k m' s' -> flt s' inf = false).
Proof.
  intros Hok.
  assert (Hok' : forall n, In n (SelectorBIC_candidates self) ->
                   exists s a, SelectorBIC_score self n = Return (s, a)).
  { intros n Hn. apply In_SelectorBIC_candidates in Hn.
    destruct (Hok n Hn) as (m & s & Hc). exists s, (Some m).
    apply SelectorBIC_score_spec. eauto. }
  unfold SelectorBIC_select. rewrite SelectorBIC_loop_search.
  destruct (search_returns flt fle (SelectorBIC_score self) flt_irrefl
              flt_trans fle_flt_trans _ Hok' inf None)
    as [[Hr Hall]|(pre & n & post & s & a & Heq & Hn & Hr & Hb & Hpre & Hall)];
    rewrite Hr; simpl.
  - right. split; [reflexivity|]. intros k m' s' Hk Hc.
    apply (Hall k s' (Some m')).
    + apply In_SelectorBIC_candidates. exact Hk.
    + apply SelectorBIC_score_spec. eauto.
  - left. apply SelectorBIC_score_spec in Hn. destruct Hn as (m & -> & Hc).
    destruct (py_range_split _ _ _ _ _ Heq) as (Hrange & Hlow & _).
    exists n, m, s. repeat split; try lia; auto.
    + destruct Hc as (logL & X0 & p & Hfit & _).
      eapply GaussianHMM_fit_n_components; eauto.
    + apply (Hall k s' (Some m')).
      * apply In_SelectorBIC_candidates. lia.
      * apply SelectorBIC_score_spec. eauto.
    + intros Hnan. apply flt_false_fle; auto.
      * eapply flt_not_nan; eauto.
      * apply (Hall k s' (Some m')).
        -- apply In_SelectorBIC_candidates. lia.
        -- apply SelectorBIC_score_spec. eauto.
    + intros k m' s' Hk Hc'. apply (Hpre k s' (Some m')).
      * apply Hlow. lia.
      * apply SelectorBIC_score_spec. eauto.
Qed.
End BIC.

(** ** SelectorDIC *)

Lemma fgt_irrefl (x : float) : fgt x x = false.
Proof. apply flt_irrefl. Qed.

Lemma fgt_trans (x y z : float) :
  fgt x y = true -> fgt y z = true -> fgt x z = true.
Proof. unfold fgt. intros Hxy Hyz. exact (flt_trans _ _ _ Hyz Hxy). Qed.

Lemma fge_fgt_trans (x y z : float) :
  fge x y = true -> fgt y z = true -> fgt x z = true.
Proof. unfold fge, fgt. intros Hxy Hyz. exact (flt_fle_trans _ _ _ Hyz Hxy). Qed.

Lemma fgt_false_fge (x y : float) :
  is_nan x = false -> is_nan y = false -> fgt x y = false -> fge y x = true.
Proof. unfold fgt, fge. intros Hx Hy. apply flt_false_fle; assumption. Qed.

Section DIC.
Context {L : Libraries}.
Variable self : ModelSelector.

Let scored_by (m : GaussianHMM) (e : string * Xlengths) (o : float) : Prop :=
  score (Some m) (fst (snd e)) (snd (snd e)) = Return o.

Let is_other (e : string * Xlengths) : bool :=
  negb (String.eqb (fst e) (this_word self)).

Lemma SelectorDIC_others_sound (m : GaussianHMM) (items : dict Xlengths) :
  forall acc r,
    SelectorDIC_others self (Some m) items acc = Return r ->
    exists others,
      Forall2 (scored_by m) (filter is_other items) others
      /\ r = acc ++ others.
Proof.
  induction items as [|[w [X' l']] rest IH]; intros acc r; simpl.
  - intros [= <-]. exists []. split; [constructor | symmetry; apply app_nil_r].
  - unfold is_other at 1. simpl.
    destruct (negb (w =? this_word self)%string).
    + destruct (hmm_score (fitted m) X' l') as [s|e] eqn:Hs; simpl;
        [|discriminate].
      intros Hr. destruct (IH _ _ Hr) as (others & HF & ->).
      exists (s :: others). split.
      * constructor; [exact Hs | exact HF].
      * rewrite <- app_assoc. reflexivity.
    + apply IH.
Qed.

Lemma SelectorDIC_others_complete (m : GaussianHMM) (items : dict Xlengths) :
  forall acc others,
    Forall2 (scored_by m) (filter is_other items) others ->
    SelectorDIC_others self (Some m) items acc = Return (acc ++ others).
Proof.
  induction items as [|[w [X' l']] rest IH]; intros acc others; simpl.
  - intros HF. inversion HF. rewrite app_nil_r. reflexivity.
  - unfold is_other at 1. simpl.
    destruct (negb (w =? this_word self)%string).
    + intros HF. inversion HF as [|e o es os Hs HF' E1 E2]. subst.
      unfold scored_by in Hs. simpl in Hs. rewrite Hs. simpl.
      rewrite (IH _ _ HF'). rewrite <- app_assoc. reflexivity.
    + apply IH.
Qed.

(** The code's score is the specification's criterion. *)
Lemma SelectorDIC_score_spec (n : Z) (s : float) (om : option GaussianHMM) :
  SelectorDIC_score self n = Return (s, om) <->
  exists m, om = Some m /\ DIC_candidate self n m s.
Proof.
  unfold SelectorDIC_score, DIC_candidate. split.
  - destruct (base_model_cases self n) as [(m & Hfit & ->)|(e & Hfit & ->)];
      cbn [bind].
    + destruct (SelectorDIC_others self (Some m) (hwords self) [])
        as [arr|e] eqn:Harr; cbn [bind]; [|discriminate].
      destruct (score (Some m) (X self) (lengths self)) as [own|e] eqn:Hown;
        cbn [bind]; [|discriminate].
      intros [= <- <-]. exists m. split; [reflexivity|].
      destruct (SelectorDIC_others_sound _ _ _ _ Harr) as (others & HF & ->).
      exists own, others. repeat split; auto.
    + destruct (SelectorDIC_others self None (hwords self) []); cbn [bind];
        discriminate.
  - intros (m & -> & own & others & Hfit & Hown & HF & ->).
    apply base_model_Some in Hfit. rewrite Hfit. cbn [bind].
    rewrite (SelectorDIC_others_complete m (hwords self) [] others HF).
    cbn [bind]. rewrite Hown. reflexivity.
Qed.

Lemma SelectorDIC_loop_search (candidates : list Z) (best_score : float)
    (best_model : option GaussianHMM) :
  SelectorDIC_loop self candidates best_score best_model =
  bind (search fgt (SelectorDIC_score self) candidates best_score best_model)
       (fun r => Return (snd r)).
Proof.
  revert best_score best_model.
  induction candidates as [|n rest IH]; intros bs bm; simpl; [reflexivity|].
  destruct (SelectorDIC_score self n) as [[s m]|e]; simpl; [|reflexivity].
  destruct (fgt s bs); apply IH.
Qed.

Lemma In_SelectorDIC_candidates (n : Z) :
  In n (SelectorDIC_candidates self) <->
  min_n_components self <= n < max_n_components self.
Proof. unfold SelectorDIC_candidates. apply In_py_range. Qed.

Lemma In_SelectorCV_candidates (n : Z) :
  In n (SelectorCV_candidates self) <->
  min_n_components self <= n <= max_n_components self.
Proof. unfold SelectorCV_candidates. rewrite In_py_range. lia. Qed.

(** C2, amended.  The candidates DIC walks are the state counts of
    [[min_n_components, max_n_components)], while BIC and CV walk
    [[min_n_components, max_n_components]].  When the fit and the scores of
    every DIC candidate succeed and some candidate's
    DIC = logL(word) - mean(logL(other words)) is above minus infinity,
    [select] returns the model of the lowest state count whose DIC no
    candidate exceeds: none is above it, none at a lower state count
    equals it, and it is at least every DIC that is not a NaN.  When no
    DIC is above minus infinity, [select] returns [None]. *)
Theorem SelectorDIC_select_first_maximum :
  (forall n, min_n_components self <= n < max_n_components self ->
             exists m s, DIC_candidate self n m s) ->
  (forall n, In n (SelectorDIC_candidates self) <->
             min_n_components self <= n < max_n_components self)
  /\ (forall n, In n (SelectorBIC_candidates self) <->
                min_n_components self <= n <= max_n_components self)
  /\ (forall n, In n (SelectorCV_candidates self) <->
                min_n_components self <= n <= max_n_components self)
  /\ ((exists n m s,
          min_n_components self <= n < max_n_components self
          /\ DIC_candidate self n m s
          /\ fgt s neg_inf = true
          /\ SelectorDIC_select self = Return (Some m)
          /\ n_components m = n
          /\ (forall k m' s',
                min_n_components self <= k < max_n_components self ->
                DIC_candidate self k m' s' ->
                fgt s' s = false /\ (is_nan s' = false -> fge s s' = true))
          /\ (forall k m' s',
                min_n_components self <= k < n ->
                DIC_candidate self k m' s' -> fge s' s = false))
      \/ (SelectorDIC_select self = Return None
          /\ forall k m' s',
               min_n_components self <= k < max_n_components self ->
               DIC_candidate self k m' s' -> fgt s' neg_inf = false)).
Proof.
  intros Hok.
  split; [exact In_SelectorDIC_candidates|].
  split; [exact (In_SelectorBIC_candidates self)|].
  split; [exact In_SelectorCV_candidates|].
  assert (Hok' : forall n, In n (SelectorDIC_candidates self) ->
                   exists s a, SelectorDIC_score self n = Return (s, a)).
  { intros n Hn. apply In_SelectorDIC_candidates in Hn.
    destruct (Hok n Hn) as (m & s & Hc). exists s, (Some m).
    apply SelectorDIC_score_spec. eauto. }
  unfold SelectorDIC_select. rewrite SelectorDIC_loop_search.
  destruct (search_returns fgt fge (SelectorDIC_score self) fgt_irrefl
              fgt_trans fge_fgt_trans _ Hok' neg_inf None)
    as [[Hr Hall]|(pre & n & post & s & a & Heq & Hn & Hr & Hb & Hpre & Hall)];
    rewrite Hr; simpl.
  - right. split; [reflexivity|]. intros k m' s' Hk Hc.
    apply (Hall k s' (Some m')).
    + apply In_SelectorDIC_candidates. exact Hk.
    + apply SelectorDIC_score_spec. eauto.
  - left. apply SelectorDIC_score_spec in Hn. destruct Hn as (m & -> & Hc).
    destruct (py_range_split _ _ _ _ _ Heq) as (Hrange & Hlow & _).
    exists n, m, s. repeat split; try lia; auto.
    + destruct Hc as (own & others & Hfit & _).
      eapply GaussianHMM_fit_n_components; eauto.
    + apply (Hall k s' (Some m')).
      * apply In_SelectorDIC_candidates. lia.
      * apply SelectorDIC_score_spec. eauto.
    + intros Hnan. apply fgt_false_fge; auto.
      * eapply fgt_not_nan; eauto.
      * apply (Hall k s' (Some m')).
        -- apply In_SelectorDIC_candidates. lia.
        -- apply SelectorDIC_score_spec. eauto.
    + intros k m' s' Hk Hc'. apply (Hpre k s' (Some m')).
      * apply Hlow. lia.
      * apply SelectorDIC_score_spec. eauto.
Qed.
End DIC.

Section DICSingleWord.
Context {L : Libraries}.
Variable self : ModelSelector.

Lemma other_words_empty :
  (forall w xl, In (w, xl) (hwords self) -> w = this_word self) ->
  other_words self = [].
Proof.
  unfold other_words. induction (hwords self) as [|[w xl] rest IH];
    intros Honly; [reflexivity|].
  simpl. rewrite (Honly w xl (or_introl eq_refl)), String.eqb_refl. simpl.
  apply IH. intros w' xl' Hin. apply (Honly w' xl'). right. exact Hin.
Qed.

(** C9, amended.  When the vocabulary mapping holds no word but the target
    and, at every candidate state count, the fit succeeds and the model
    scores the word's own data, every candidate's DIC is a NaN (the mean of
    no scores), the comparison never holds, and [select] returns [None]
    from the search itself: it does not raise and does not fall back. *)
Theorem SelectorDIC_select_single_word :
  (forall w xl, In (w, xl) (hwords self) -> w = this_word self) ->
  (forall n, min_n_components self <= n < max_n_components self ->
             exists m own,
               GaussianHMM_fit n (random_state self) (X self) (lengths self)
               = Return m
               /\ score (Some m) (X self) (lengths self) = Return own) ->
  (forall n, min_n_components self <= n < max_n_components self ->
             exists m, SelectorDIC_score self n = Return (nan, Some m))
  /\ SelectorDIC_loop self (SelectorDIC_candidates self) neg_inf None
     = Return None
  /\ SelectorDIC_select self = Return None.
Proof.
  intros Honly Hok.
  assert (Hnan : forall n,
             min_n_components self <= n < max_n_components self ->
             exists m, SelectorDIC_score self n = Return (nan, Some m)).
  { intros n Hn. destruct (Hok n Hn) as (m & own & Hfit & Hown).
    exists m. apply SelectorDIC_score_spec. exists m. split; [reflexivity|].
    exists own, []. repeat split; auto.
    - rewrite (other_words_empty Honly). constructor.
    - rewrite np_mean_empty, fsub_nan_r. reflexivity. }
  split; [exact Hnan|].
  assert (Hloop : SelectorDIC_loop self (SelectorDIC_candidates self)
                    neg_inf None = Return None).
  { rewrite SelectorDIC_loop_search.
    assert (Hok' : forall n, In n (SelectorDIC_candidates self) ->
                     exists s a, SelectorDIC_score self n = Return (s, a)).
    { intros n Hn. apply In_SelectorDIC_candidates in Hn.
      destruct (Hnan n Hn) as (m & Hs). eauto. }
    destruct (search_returns fgt fge (SelectorDIC_score self) fgt_irrefl
                fgt_trans fge_fgt_trans _ Hok' neg_inf None)
      as [[Hr _]|(pre & n & post & s & a & Heq & Hn & Hr & Hb & _)].
    - rewrite Hr. reflexivity.
    - assert (Hin : In n (SelectorDIC_candidates self))
        by (rewrite Heq; apply in_or_app; right; left; reflexivity).
      apply In_SelectorDIC_candidates in Hin.
      destruct (Hnan n Hin) as (m & Hs). rewrite Hs in Hn.
      injection Hn as <- <-. discriminate Hb. }
  split; [exact Hloop|].
  unfold SelectorDIC_select. rewrite Hloop. reflexivity.
Qed.
End DICSingleWord.

(** ** SelectorCV *)

Section CV.
Context {L : Libraries}.
Variable self : ModelSelector.

Lemma skipn_nth_error {A : Type} (l : list A) (i : nat) (a : A) :
  nth_error l i = Some a -> skipn i l = a :: skipn (S i) l.
Proof.
  revert i. induction l as [|x l IH]; intros [|i]; simpl;
    try discriminate.
  - intros [= ->]. reflexivity.
  - intros Hnth. apply (IH i Hnth).
Qed.

Lemma getitems_seq {A : Type} (l : list A) (count start : nat) :
  (start + count <= List.length l)%nat ->
  getitems l (seq start count) = Return (firstn count (skipn start l)).
Proof.
  revert start. induction count as [|c IH]; intros start Hle;
    [reflexivity|].
  cbn [seq getitems]. unfold list_getitem.
  destruct (nth_error l start) as [a|] eqn:Hnth.
  - cbn [bind]. rewrite IH by lia. cbn [bind].
    rewrite (skipn_nth_error l start a Hnth). reflexivity.
  - apply nth_error_None in Hnth. lia.
Qed.

Lemma combine_sequences_seq (seqs : Sequences) (start count : nat) :
  (start + count <= List.length seqs)%nat ->
  combine_sequences (seq start count) seqs =
  Return (List.concat (firstn count (skipn start seqs)),
          map len (firstn count (skipn start seqs))).
Proof.
  intros Hle. unfold combine_sequences. rewrite getitems_seq by exact Hle.
  reflexivity.
Qed.

Lemma half_le (n : nat) : (n / 2 + n mod 2 <= n)%nat.
Proof. pose proof (Nat.div_mod_eq n 2). lia. Qed.

(** The folds of [KFold_split] are the first half of the sequences and the
    rest. *)
Lemma SelectorCV_score_held_out (n : Z) :
  (2 <= List.length (sequences self))%nat ->
  let seqs := sequences self in
  let k := (List.length seqs / 2 + List.length seqs mod 2)%nat in
  SelectorCV_score self n =
  bind (held_out self n (skipn k seqs) (firstn k seqs)) (fun s0 =>
  bind (held_out self n (firstn k seqs) (skipn k seqs)) (fun s1 =>
  Return (np_mean [s0; s1]))).
Proof.
  intros Hlen. cbv zeta. unfold SelectorCV_score, KFold_split.
  destruct (List.length (sequences self) <? 2)%nat eqn:Hlt;
    [apply Nat.ltb_lt in Hlt; lia|].
  pose proof (half_le (List.length (sequences self))) as Hk.
  set (seqs := sequences self) in *.
  set (k := (List.length seqs / 2 + List.length seqs mod 2)%nat) in *.
  cbn [bind SelectorCV_folds]. change (sequences self) with seqs.
  assert (Hrest : combine_sequences (seq k (List.length seqs - k)) seqs =
                  Return (List.concat (skipn k seqs), map len (skipn k seqs))).
  { rewrite combine_sequences_seq by lia.
    rewrite firstn_all2 by (rewrite length_skipn; lia). reflexivity. }
  assert (Hhead : combine_sequences (seq 0 k) seqs =
                  Return (List.concat (firstn k seqs), map len (firstn k seqs))).
  { rewrite combine_sequences_seq by lia. reflexivity. }
  unfold held_out. rewrite Hrest, Hhead. cbn [bind fst snd].
  destruct (GaussianHMM_fit n (random_state self)
              (List.concat (skipn k seqs)) (map len (skipn k seqs)))
    as [m0|e]; cbn [bind fst snd]; [|reflexivity].
  destruct (score (Some m0) (List.concat (firstn k seqs))
              (map len (firstn k seqs))) as [s0|e]; cbn [bind];
    [|reflexivity].
  destruct (GaussianHMM_fit n (random_state self)
              (List.concat (firstn k seqs)) (map len (firstn k seqs)))
    as [m1|e]; cbn [bind fst snd]; [|reflexivity].
  destruct (score (Some m1) (List.concat (skipn k seqs))
              (map len (skipn k seqs))) as [s1|e]; cbn [bind];
    reflexivity.
Qed.

(** With fewer than two sequences the split raises. *)
Lemma SelectorCV_score_too_few (n : Z) :
  (List.length (sequences self) < 2)%nat ->
  SelectorCV_score self n = Raise ValueError.
Proof.
  intros Hlen. unfold SelectorCV_score, KFold_split.
  apply Nat.ltb_lt in Hlen. rewrite Hlen. reflexivity.
Qed.

(** The code's score is the specification's criterion. *)
Lemma SelectorCV_score_spec (n : Z) (s : float) :
  SelectorCV_score self n = Return s <-> CV_candidate self n s.
Proof.
  unfold CV_candidate.
  destruct (le_lt_dec 2 (List.length (sequences self))) as [Hlen|Hlen].
  - rewrite (SelectorCV_score_held_out n Hlen). cbv zeta. split.
    + intros Hr. apply bind_Return_inv in Hr. destruct Hr as (s0 & H0 & Hr).
      apply bind_Return_inv in Hr. destruct Hr as (s1 & H1 & [= <-]).
      exists s0, s1. auto.
    + intros (s0 & s1 & _ & -> & -> & ->). reflexivity.
  - rewrite (SelectorCV_score_too_few n Hlen). split; [discriminate|].
    intros (s0 & s1 & Hlen' & _). lia.
Qed.
End CV.

Section CVSelect.
Context {L : Libraries}.
Variable self : ModelSelector.

Let score_fn (n : Z) : py (float * Z) :=
  bind (SelectorCV_score self n) (fun s => Return (s, n)).

Lemma SelectorCV_loop_search (candidates : list Z) (best_score : float)
    (best_states : Z) :
  SelectorCV_loop self candidates best_score best_states =
  bind (search fgt score_fn candidates best_score best_states)
       (fun r => Return (snd r)).
Proof.
  revert best_score best_states.
  induction candidates as [|n rest IH]; intros bs b; simpl; [reflexivity|].
  unfold score_fn at 1.
  destruct (SelectorCV_score self n) as [s|e]; simpl; [|reflexivity].
  destruct (fgt s bs); apply IH.
Qed.

Lemma score_fn_Return (n : Z) (s : float) (a : Z) :
  score_fn n = Return (s, a) <-> a = n /\ CV_candidate self n s.
Proof.
  unfold score_fn. rewrite <- SelectorCV_score_spec.
  destruct (SelectorCV_score self n) as [s'|e]; simpl.
  - split; [intros [= <- <-]; auto | intros [-> [= ->]]; reflexivity].
  - split; [discriminate | intros [_ H]; discriminate].
Qed.

(** Once the search has returned [best], [select] is the fit on the whole
    word at [best]. *)
Lemma SelectorCV_select_after_search (best : Z) :
  SelectorCV_loop self (SelectorCV_candidates self) neg_inf 3 = Return best ->
  SelectorCV_select self = base_model self best.
Proof.
  unfold SelectorCV_select. intros ->. cbn [bind].
  destruct (base_model_returns self best) as (r & ->). reflexivity.
Qed.

(** A search that raises falls back to the fit at [n_constant]. *)
Lemma SelectorCV_select_fallback (e : exn) :
  SelectorCV_loop self (SelectorCV_candidates self) neg_inf 3 = Raise e ->
  SelectorCV_select self = base_model self (n_constant self).
Proof. unfold SelectorCV_select. intros ->. reflexivity. Qed.

(** C3, amended.  With at least two sequences and every fold fit and fold
    score succeeding, [select] returns the fit on the entire word's data
    ([self.X], [self.lengths]) at the state count [best] it picked, and
    [best] is the lowest state count of
    [[min_n_components, max_n_components]] whose mean held-out
    log-likelihood over the two folds no candidate exceeds, provided some
    candidate's mean is above minus infinity; when none is, and in
    particular when the range is empty, [best] is 3. *)
Theorem SelectorCV_select_refits_first_maximum :
  (2 <= List.length (sequences self))%nat ->
  (forall n, min_n_components self <= n <= max_n_components self ->
             exists s, CV_candidate self n s) ->
  exists best,
    SelectorCV_select self = base_model self best
    /\ (forall m,
          GaussianHMM_fit best (random_state self) (X self) (lengths self)
          = Return m ->
          SelectorCV_select self = Return (Some m) /\ n_components m = best)
    /\ ((exists s,
            min_n_components self <= best <= max_n_components self
            /\ CV_candidate self best s
            /\ fgt s neg_inf = true
            /\ (forall k s',
                  min_n_components self <= k <= max_n_components self ->
                  CV_candidate self k s' ->
                  fgt s' s = false /\ (is_nan s' = false -> fge s s' = true))
            /\ (forall k s',
                  min_n_components self <= k < best ->
                  CV_candidate self k s' -> fge s' s = false))
        \/ (best = 3
            /\ forall k s',
                 min_n_components self <= k <= max_n_components self ->
                 CV_candidate self k s' -> fgt s' neg_inf = false))
    /\ (max_n_components self < min_n_components self -> best = 3).
Proof.
  intros Hlen Hok.
  assert (Hok' : forall n, In n (SelectorCV_candidates self) ->
                   exists s a, score_fn n = Return (s, a)).
  { intros n Hn. apply In_SelectorCV_candidates in Hn.
    destruct (Hok n Hn) as (s & Hc). exists s, n.
    apply score_fn_Return. auto. }
  assert (Hrefit : forall best,
             SelectorCV_select self = base_model self best ->
             forall m,
               GaussianHMM_fit best (random_state self) (X self) (lengths self)
               = Return m ->
               SelectorCV_select self = Return (Some m)
               /\ n_components m = best).
  { intros best -> m Hfit. split.
    - apply base_model_Some. exact Hfit.
    - eapply GaussianHMM_fit_n_components; eauto. }
  destruct (search_returns fgt fge score_fn fgt_irrefl
              fgt_trans fge_fgt_trans _ Hok' neg_inf 3)
    as [[Hr Hall]|(pre & n & post & s & a & Heq & Hn & Hr & Hb & Hpre & Hall)].
  - assert (Hsel : SelectorCV_select self = base_model self 3).
    { apply SelectorCV_select_after_search.
      rewrite SelectorCV_loop_search, Hr. reflexivity. }
    exists 3. split; [exact Hsel|]. split; [apply Hrefit; exact Hsel|].
    split; [|reflexivity].
    right. split; [reflexivity|]. intros k s' Hk Hc.
    apply (Hall k s' k).
    + apply In_SelectorCV_candidates. exact Hk.
    + apply score_fn_Return. auto.
  - apply score_fn_Return in Hn. destruct Hn as [-> Hc].
    assert (Hsel : SelectorCV_select self = base_model self n).
    { apply SelectorCV_select_after_search.
      rewrite SelectorCV_loop_search, Hr. reflexivity. }
    unfold SelectorCV_candidates in Heq.
    destruct (py_range_split _ _ _ _ _ Heq) as (Hrange & Hlow & _).
    exists n. split; [exact Hsel|]. split; [apply Hrefit; exact Hsel|].
    split; [|lia].
    left. exists s. repeat split; try lia; auto.
    + apply (Hall k s' k).
      * apply In_SelectorCV_candidates. lia.
      * apply score_fn_Return. auto.
    + intros Hnan. apply fgt_false_fge; auto.
      * eapply fgt_not_nan; eauto.
      * apply (Hall k s' k).
        -- apply In_SelectorCV_candidates. lia.
        -- apply score_fn_Return. auto.
    + intros k s' Hk Hc'. apply (Hpre k s' k).
      * apply Hlow. lia.
      * apply score_fn_Return. auto.
Qed.

(** Any candidate whose score raises sends [select] to the fallback. *)
Lemma SelectorCV_select_score_raises (n : Z) (e : exn) :
  In n (SelectorCV_candidates self) ->
  SelectorCV_score self n = Raise e ->
  SelectorCV_select self = base_model self (n_constant self).
Proof.
  intros Hin Hs.
  assert (Hs' : score_fn n = Raise e) by (unfold score_fn; rewrite Hs; reflexivity).
  destruct (search_raises fgt score_fn _ n e Hin Hs' neg_inf 3) as (e' & Hr).
  apply (SelectorCV_select_fallback e').
  rewrite SelectorCV_loop_search, Hr. reflexivity.
Qed.

(** C10, amended.  With fewer than two sequences and a non-empty range of
    candidates, the 2-fold split raises inside [score], the handler of
    [select] catches it, and the result is the fit at [n_constant]: that
    model, or [None] when that fit raises too.  [select] itself does not
    raise. *)
Theorem SelectorCV_select_too_few_sequences :
  (List.length (sequences self) < 2)%nat ->
  min_n_components self <= max_n_components self ->
  (forall n, SelectorCV_score self n = Raise ValueError)
  /\ SelectorCV_select self = base_model self (n_constant self)
  /\ (forall m,
        GaussianHMM_fit (n_constant self) (random_state self)
          (X self) (lengths self) = Return m ->
        SelectorCV_select self = Return (Some m))
  /\ (forall e,
        hmm_fit (n_constant self) (random_state self)
          (X self) (lengths self) = Raise e ->
        SelectorCV_select self = Return None).
Proof.
  intros Hlen Hrange.
  assert (Hraise : forall n, SelectorCV_score self n = Raise ValueError)
    by (intros n; apply SelectorCV_score_too_few; exact Hlen).
  assert (Hsel : SelectorCV_select self = base_model self (n_constant self)).
  { apply (SelectorCV_select_score_raises (min_n_components self) ValueError).
    - apply In_SelectorCV_candidates. lia.
    - apply Hraise. }
  split; [exact Hraise|]. split; [exact Hsel|]. split.
  - intros m Hfit. rewrite Hsel. apply base_model_Some. exact Hfit.
  - intros e Hfit. rewrite Hsel. apply base_model_None. eauto.
Qed.
End CVSelect.

(** ** Fit failures and the fallback *)

Section Fallback.
Context {L : Libraries}.
Variable self : ModelSelector.

Lemma SelectorBIC_select_score_raises (n : Z) (e : exn) :
  In n (SelectorBIC_candidates self) ->
  SelectorBIC_score self n = Raise e ->
  SelectorBIC_select self = base_model self (n_constant self).
Proof.
  intros Hin Hs.
  destruct (search_raises flt (SelectorBIC_score self) _ n e Hin Hs inf None)
    as (e' & Hr).
  unfold SelectorBIC_select. rewrite SelectorBIC_loop_search, Hr. reflexivity.
Qed.

Lemma SelectorDIC_select_score_raises (n : Z) (e : exn) :
  In n (SelectorDIC_candidates self) ->
  SelectorDIC_score self n = Raise e ->
  SelectorDIC_select self = base_model self (n_constant self).
Proof.
  intros Hin Hs.
  destruct (search_raises fgt (SelectorDIC_score self) _ n e Hin Hs
              neg_inf None) as (e' & Hr).
  unfold SelectorDIC_select. rewrite SelectorDIC_loop_search, Hr. reflexivity.
Qed.

(** A failed fit leaves [None], on which [score] raises. *)
Lemma SelectorBIC_score_fit_fails (n : Z) (e : exn) :
  hmm_fit n (random_state self) (X self) (lengths self) = Raise e ->
  SelectorBIC_score self n = Raise AttributeError.
Proof.
  intros Hfit. unfold SelectorBIC_score.
  replace (base_model self n) with (Return (@None GaussianHMM))
    by (symmetry; apply base_model_None; eauto).
  reflexivity.
Qed.

Lemma SelectorDIC_score_fit_fails (n : Z) (e : exn) :
  hmm_fit n (random_state self) (X self) (lengths self) = Raise e ->
  exists e', SelectorDIC_score self n = Raise e'.
Proof.
  intros Hfit. unfold SelectorDIC_score.
  replace (base_model self n) with (Return (@None GaussianHMM))
    by (symmetry; apply base_model_None; eauto).
  cbn [bind].
  destruct (SelectorDIC_others self None (hwords self) []); cbn [bind score];
    eauto.
Qed.

Lemma SelectorCV_folds_fit_raises (n : Z) (folds : list (list nat * list nat))
    (tr te : list nat) (Xl : Xlengths) (e : exn) :
  In (tr, te) folds ->
  combine_sequences tr (sequences self) = Return Xl ->
  hmm_fit n (random_state self) (fst Xl) (snd Xl) = Raise e ->
  forall scores, exists e', SelectorCV_folds self n folds scores = Raise e'.
Proof.
  intros Hin Hc Hfit. apply (GaussianHMM_fit_Raise n) in Hfit.
  induction folds as [|[tr0 te0] rest IH]; intros scores; [destruct Hin|].
  cbn [SelectorCV_folds].
  destruct Hin as [[= -> ->]|Hin].
  - rewrite Hc. cbn [bind]. rewrite Hfit. cbn [bind]. eauto.
  - destruct (combine_sequences tr0 (sequences self)) as [train|]; cbn [bind];
      [|eauto].
    destruct (GaussianHMM_fit n (random_state self) (fst train) (snd train));
      cbn [bind]; [|eauto].
    destruct (combine_sequences te0 (sequences self)) as [test|]; cbn [bind];
      [|eauto].
    destruct (score _ (fst test) (snd test)); cbn [bind]; [|eauto].
    apply IH. exact Hin.
Qed.

(** C4, amended.  For every strategy, a fit that raises at a candidate
    state count is caught and [select] does not raise, but the search ends
    there: whatever the other candidates are, and whatever was found
    before, [select] returns the fit at [n_constant] ([None] when that fit
    raises too). *)
Theorem select_fit_failure_falls_back (cls : Selector) (n : Z) :
  candidate_fit_fails cls self n ->
  select cls self = base_model self (n_constant self)
  /\ (exists r, select cls self = Return r)
  /\ (forall e,
        hmm_fit (n_constant self) (random_state self) (X self) (lengths self)
        = Raise e ->
        select cls self = Return None).
Proof.
  intros Hfail.
  assert (Hsel : select cls self = base_model self (n_constant self)).
  { destruct cls; simpl in *.
    - destruct Hfail.
    - destruct Hfail as (Hin & e & Hfit).
      eapply SelectorBIC_select_score_raises; eauto.
      eapply SelectorBIC_score_fit_fails; eauto.
    - destruct Hfail as (Hin & e & Hfit).
      destruct (SelectorDIC_score_fit_fails n e Hfit) as (e' & Hs).
      eapply SelectorDIC_select_score_raises; eauto.
    - destruct Hfail as (Hin & folds & tr & te & Xl & e & Hk & Hfold & Hc & Hfit).
      assert (Hs : exists e', SelectorCV_score self n = Raise e').
      { unfold SelectorCV_score. rewrite Hk. cbn [bind].
        destruct (SelectorCV_folds_fit_raises n folds tr te Xl e
                    Hfold Hc Hfit []) as (e' & ->).
        cbn [bind]. eauto. }
      destruct Hs as (e' & Hs).
      eapply SelectorCV_select_score_raises; eauto. }
  split; [exact Hsel|]. split.
  - rewrite Hsel. apply base_model_returns.
  - intros e He. rewrite Hsel. apply base_model_None. eauto.
Qed.
End Fallback.

(** ** The state count of what [select] returns *)

Section StateCount.
Context {L : Libraries}.
Variable self : ModelSelector.

(** The state counts a result may have: within the range, the constant,
    or, for CV only, the fixed 3 its search starts from. *)
Let admissible (cls : Selector) (r : option GaussianHMM) : Prop :=
  r = None
  \/ exists m,
       r = Some m
       /\ (min_n_components self <= n_components m <= max_n_components self
           \/ n_components m = n_constant self
           \/ (cls = SelectorCV /\ n_components m = 3)).

Lemma base_model_admissible (cls : Selector) (n : Z) :
  min_n_components self <= n <= max_n_components self
  \/ n = n_constant self \/ (cls = SelectorCV /\ n = 3) ->
  exists r, base_model self n = Return r /\ admissible cls r.
Proof.
  intros Hn. destruct (base_model_cases self n) as [(m & Hfit & ->)|(e & _ & ->)].
  - exists (Some m). split; [reflexivity|]. right. exists m.
    split; [reflexivity|].
    rewrite (GaussianHMM_fit_n_components _ _ _ _ _ Hfit). exact Hn.
  - exists None. split; [reflexivity|]. left. reflexivity.
Qed.

(** C7, amended.  For every strategy, [select] returns (it never raises)
    either [None] or a model whose state count lies in
    [[min_n_components, max_n_components]], or equals [n_constant], or,
    for CV only, is the 3 its search starts from. *)
Theorem select_state_count (cls : Selector) :
  exists r,
    select cls self = Return r
    /\ (r = None
        \/ exists m,
             r = Some m
             /\ (min_n_components self <= n_components m
                 <= max_n_components self
                 \/ n_components m = n_constant self
                 \/ (cls = SelectorCV /\ n_components m = 3))).
Proof.
  change (exists r, select cls self = Return r /\ admissible cls r).
  destruct cls; simpl.
  - unfold SelectorConstant_select. apply base_model_admissible. auto.
  - unfold SelectorBIC_select. rewrite SelectorBIC_loop_search.
    destruct (search flt (SelectorBIC_score self)
                (SelectorBIC_candidates self) inf None)
      as [[s om]|e] eqn:Hr; cbn [bind try_except snd].
    + exists om. split; [reflexivity|].
      destruct (search_Return_inv _ _ _ _ _ _ _ Hr)
        as [[= -> ->]|(n & Hn & Hs)]; [left; reflexivity|].
      apply SelectorBIC_score_spec in Hs. destruct Hs as (m & -> & Hc).
      destruct Hc as (logL & X0 & p & Hfit & _).
      apply In_SelectorBIC_candidates in Hn.
      right. exists m. split; [reflexivity|]. left.
      rewrite (GaussianHMM_fit_n_components _ _ _ _ _ Hfit). exact Hn.
    + apply base_model_admissible. auto.
  - unfold SelectorDIC_select. rewrite SelectorDIC_loop_search.
    destruct (search fgt (SelectorDIC_score self)
                (SelectorDIC_candidates self) neg_inf None)
      as [[s om]|e] eqn:Hr; cbn [bind try_except snd].
    + exists om. split; [reflexivity|].
      destruct (search_Return_inv _ _ _ _ _ _ _ Hr)
        as [[= -> ->]|(n & Hn & Hs)]; [left; reflexivity|].
      apply SelectorDIC_score_spec in Hs. destruct Hs as (m & -> & Hc).
      destruct Hc as (own & others & Hfit & _).
      apply In_SelectorDIC_candidates in Hn.
      right. exists m. split; [reflexivity|]. left.
      rewrite (GaussianHMM_fit_n_components _ _ _ _ _ Hfit). lia.
    + apply base_model_admissible. auto.
  - destruct (SelectorCV_loop self (SelectorCV_candidates self) neg_inf 3)
      as [best|e] eqn:Hr.
    + rewrite (SelectorCV_select_after_search self best Hr).
      apply base_model_admissible.
      rewrite SelectorCV_loop_search in Hr.
      apply bind_Return_inv in Hr. destruct Hr as ([s a] & Hr & [= <-]).
      destruct (search_Return_inv _ _ _ _ _ _ _ Hr)
        as [[= -> ->]|(n & Hn & Hs)]; [auto|].
      apply bind_Return_inv in Hs. destruct Hs as (s' & _ & [= _ <-]).
      apply In_SelectorCV_candidates in Hn. auto.
    + rewrite (SelectorCV_select_fallback self e Hr).
      apply base_model_admissible. auto.
Qed.
End StateCount.

(** ** Determinism of SelectorBIC *)

Section Determinism.
Context {L : Libraries}.
Variables self1 self2 : ModelSelector.

Hypothesis same_X : X self1 = X self2.
Hypothesis same_lengths : lengths self1 = lengths self2.
Hypothesis same_n_constant : n_constant self1 = n_constant self2.
Hypothesis same_min : min_n_components self1 = min_n_components self2.
Hypothesis same_max : max_n_components self1 = max_n_components self2.
Hypothesis same_seed : random_state self1 = random_state self2.




End Determinism.

(** ** Dicts *)

Lemma dict_get_setitem_same {V : Type} (d : dict V) (k : string) (v : V) :
  dict_get (dict_setitem d k v) k = Some v.
Proof.
  induction d as [|[k' v'] rest IH]; simpl.
  - rewrite String.eqb_refl. reflexivity.
  - destruct (String.eqb k' k) eqn:Hk; simpl; rewrite Hk; auto.
Qed.

Lemma dict_get_setitem_other {V : Type} (d : dict V) (k k0 : string) (v : V) :
  k <> k0 -> dict_get (dict_setitem d k v) k0 = dict_get d k0.
Proof.
  intros Hne. induction d as [|[k' v'] rest IH]; simpl.
  - destruct (String.eqb k k0) eqn:Hk; [apply String.eqb_eq in Hk; contradiction|].
    reflexivity.
  - destruct (String.eqb k' k) eqn:Hk; simpl.
    + apply String.eqb_eq in Hk. subst k'.
      destruct (String.eqb k k0) eqn:Hk0;
        [apply String.eqb_eq in Hk0; contradiction | reflexivity].
    + rewrite IH. reflexivity.
Qed.

Lemma NoDup_keys_functional {V : Type} (d : dict V) (k : string) (v v' : V) :
  NoDup (keys d) -> In (k, v) d -> In (k, v') d -> v = v'.
Proof.
  unfold keys. induction d as [|[k0 v0] rest IH]; intros Hnd Hin Hin';
    [destruct Hin|].
  simpl in Hnd. inversion Hnd as [|? ? Hnotin Hnd']. subst.
  destruct Hin as [Heq|Hin]; destruct Hin' as [Heq'|Hin'].
  - congruence.
  - injection Heq as -> ->. exfalso. apply Hnotin.
    apply (in_map fst) in Hin'. exact Hin'.
  - injection Heq' as -> ->. exfalso. apply Hnotin.
    apply (in_map fst) in Hin. exact Hin.
  - auto.
Qed.

(** ** The recogniser *)

Section Recognize.
Context {L : Libraries}.
Variable models : dict (option GaussianHMM).

Section OneItem.
Variables (X' : FeatureMatrix) (l' : list Z).

Lemma recognize_word_table_same (st : word_loop_state) (w : string)
    (model : option GaussianHMM) (e : exn) :
  score model X' l' = Raise e ->
  dict_get (word_probabilities (recognize_word X' l' st w model)) w
  = Some neg_inf
  /\ best_guess (recognize_word X' l' st w model) = best_guess st.
Proof.
  intros Hs. unfold recognize_word. rewrite Hs. simpl.
  split; [apply dict_get_setitem_same | reflexivity].
Qed.

Lemma recognize_word_table_other (st : word_loop_state) (w w0 : string)
    (model : option GaussianHMM) :
  w <> w0 ->
  dict_get (word_probabilities (recognize_word X' l' st w model)) w0
  = dict_get (word_probabilities st) w0.
Proof.
  intros Hne. unfold recognize_word.
  destruct (score model X' l') as [s|e]; [destruct (fgt s (best_score st))|];
    simpl; apply dict_get_setitem_other; exact Hne.
Qed.

(** Words that come later leave the entry of an absent key alone. *)
Lemma recognize_words_table_absent (items : dict (option GaussianHMM))
    (w0 : string) :
  ~ In w0 (keys items) ->
  forall st,
    dict_get (word_probabilities (recognize_words X' l' items st)) w0
    = dict_get (word_probabilities st) w0.
Proof.
  induction items as [|[w model] rest IH]; intros Hnotin st; simpl;
    [reflexivity|].
  simpl in Hnotin. rewrite IH by tauto.
  apply recognize_word_table_other. tauto.
Qed.

Lemma recognize_words_table_failed (items : dict (option GaussianHMM))
    (w : string) (model : option GaussianHMM) (e : exn) :
  NoDup (keys items) -> In (w, model) items ->
  score model X' l' = Raise e ->
  forall st,
    dict_get (word_probabilities (recognize_words X' l' items st)) w
    = Some neg_inf.
Proof.
  induction items as [|[w0 m0] rest IH]; intros Hnd Hin Hs st;
    [destruct Hin|].
  simpl in Hnd. inversion Hnd as [|? ? Hnotin Hnd']. subst. simpl.
  destruct Hin as [[= -> ->]|Hin].
  - rewrite recognize_words_table_absent by exact Hnotin.
    apply (recognize_word_table_same st w model e Hs).
  - apply IH; assumption.
Qed.

(** The guess is the one the loop started with or a word whose model
    returned a score. *)
Lemma recognize_words_guess (items : dict (option GaussianHMM)) :
  forall st,
    best_guess (recognize_words X' l' items st) = best_guess st
    \/ exists w model s,
         In (w, model) items
         /\ score model X' l' = Return s
         /\ best_guess (recognize_words X' l' items st) = Some w.
Proof.
  induction items as [|[w0 m0] rest IH]; intros st; simpl; [auto|].
  destruct (IH (recognize_word X' l' st w0 m0))
    as [Hg|(w & model & s & Hin & Hs & Hg)].
  - rewrite Hg. unfold recognize_word.
    destruct (score m0 X' l') as [s|e] eqn:Hs; [|auto].
    destruct (fgt s (best_score st)); simpl; [|auto].
    right. exists w0, m0, s. auto.
  - right. exists w, model, s. auto.
Qed.
End OneItem.

Lemma recognize_loop_spec (items : list Xlengths) :
  forall probabilities guesses,
    recognize_loop models items probabilities guesses =
    (probabilities
       ++ map (fun item => word_probabilities (recognize_item models item)) items,
     guesses ++ map (fun item => best_guess (recognize_item models item)) items).
Proof.
  induction items as [|item rest IH]; intros ps gs; simpl.
  - rewrite !app_nil_r. reflexivity.
  - rewrite IH, <- !app_assoc. reflexivity.
Qed.

Lemma recognize_nth (test_set : SinglesData) (filters : list warning_filter)
    (i : nat) (item : Xlengths) :
  nth_error (values (get_all_Xlengths test_set)) i = Some item ->
  nth_error (fst (fst (recognize models test_set filters))) i
  = Some (word_probabilities (recognize_item models item))
  /\ nth_error (snd (fst (recognize models test_set filters))) i
     = Some (best_guess (recognize_item models item)).
Proof.
  intros Hnth. unfold recognize. cbn [fst snd].
  rewrite recognize_loop_spec. cbn [fst snd app].
  split; rewrite nth_error_map, Hnth; reflexivity.
Qed.

(** C5.  When the model of a word raises while scoring a test item, the
    item's score table holds minus infinity for that word and the item's
    guess is not that word; when every model raises on the item, its guess
    is [None].  (The keys of the dict [models] are distinct.) *)
Theorem recognize_failed_word (test_set : SinglesData)
    (filters : list warning_filter) (i : nat) (item : Xlengths) :
  NoDup (keys models) ->
  nth_error (values (get_all_Xlengths test_set)) i = Some item ->
  exists table guess,
    nth_error (fst (fst (recognize models test_set filters))) i = Some table
    /\ nth_error (snd (fst (recognize models test_set filters))) i = Some guess
    /\ (forall w model e,
          In (w, model) models ->
          score model (fst item) (snd item) = Raise e ->
          dict_get table w = Some neg_inf /\ guess <> Some w)
    /\ ((forall w model,
           In (w, model) models ->
           exists e, score model (fst item) (snd item) = Raise e) ->
        guess = None).
Proof.
  intros Hnd Hnth.
  destruct (recognize_nth test_set filters i item Hnth) as [Hp Hg].
  exists (word_probabilities (recognize_item models item)),
         (best_guess (recognize_item models item)).
  split; [exact Hp|]. split; [exact Hg|].
  unfold recognize_item.
  set (st0 := {| word_probabilities := []; best_score := neg_inf;
                 best_guess := None |}).
  split.
  - intros w model e Hin Hs. split.
    + eapply recognize_words_table_failed; eauto.
    + destruct (recognize_words_guess (fst item) (snd item) models st0)
        as [Hg0|(w' & model' & s & Hin' & Hs' & Hg')].
      * rewrite Hg0. discriminate.
      * rewrite Hg'. intros [= ->].
        rewrite (NoDup_keys_functional models w model model' Hnd Hin Hin') in Hs.
        congruence.
  - intros Hall.
    destruct (recognize_words_guess (fst item) (snd item) models st0)
      as [Hg0|(w' & model' & s & Hin' & Hs' & Hg')]; [exact Hg0|].
    destruct (Hall w' model' Hin') as (e & He). congruence.
Qed.

End Recognize.

(** * Closed examples *)

(** The scenarios of the specification. *)

Example BIC_scenario :
  SelectorBIC_score (L := lib_bic) sel_one_word 2
  = Return (of_Z 120, Some (table_model _ _ 2))
  /\ SelectorBIC_score (L := lib_bic) sel_one_word 3
     = Return (of_Z 95, Some (table_model _ _ 3))
  /\ SelectorBIC_score (L := lib_bic) sel_one_word 4
     = Return (of_Z 110, Some (table_model _ _ 4))
  /\ SelectorBIC_select (L := lib_bic) sel_one_word
     = Return (Some (table_model _ _ 3)).
Proof. repeat split; reflexivity. Qed.

Example recognize_scenario :
  fst (recognize (L := table_libraries fits_always loglik_words)
         (two_models _ _) one_item [])
  = ([[("WORD1"%string, of_Z (-1000)); ("WORD2"%string, of_Z (-500))]],
     [Some "WORD2"%string]).
Proof. reflexivity. Qed.

Ltac split_cases H :=
  match type of H with
  | _ \/ _ => destruct H as [H|H]; [|split_cases H]
  | _ => idtac
  end.

Lemma SelectorBIC_select_first_minimum_witness :
  exists n m s,
    2 <= n <= 4
    /\ BIC_candidate (L := lib_bic) sel_one_word n m s
    /\ SelectorBIC_select (L := lib_bic) sel_one_word = Return (Some m)
    /\ n_components m = n.
Proof.
  assert (Hok : forall n,
             min_n_components sel_one_word <= n <= max_n_components sel_one_word ->
             exists m s, BIC_candidate (L := lib_bic) sel_one_word n m s).
  { intros n Hn. change (2 <= n <= 4) in Hn.
    assert (Hc : n = 2 \/ n = 3 \/ n = 4) by lia. split_cases Hc; subst n.
    - destruct (proj1 (SelectorBIC_score_spec (L := lib_bic) sel_one_word 2 _ _)
                  eq_refl) as (m & _ & Hc). eauto.
    - destruct (proj1 (SelectorBIC_score_spec (L := lib_bic) sel_one_word 3 _ _)
                  eq_refl) as (m & _ & Hc). eauto.
    - destruct (proj1 (SelectorBIC_score_spec (L := lib_bic) sel_one_word 4 _ _)
                  eq_refl) as (m & _ & Hc). eauto. }
  destruct (SelectorBIC_select_first_minimum (L := lib_bic) sel_one_word Hok)
    as [(n & m & s & Hn & Hc & _ & Hsel & Hcount & _)|(Hsel & _)].
  - exists n, m, s. auto.
  - assert (Hx : SelectorBIC_select (L := lib_bic) sel_one_word
                 = Return (Some (table_model fits_always loglik_bic 3)))
      by reflexivity.
    rewrite Hx in Hsel. discriminate Hsel.
Defined.

(** C1 as stated fails: every fit and every score succeeds, each model
    answers minus infinity, each BIC is plus infinity, and [select] returns
    no model although the claim promises the one at the lowest state
    count. *)
Lemma SelectorBIC_select_counterexample :
  (forall n, 2 <= n <= 4 ->
             exists m,
               base_model (L := lib_neg_inf) sel_one_word n = Return (Some m)
               /\ score (Some m) (X sel_one_word) (lengths sel_one_word)
                  = Return neg_inf
               /\ SelectorBIC_score (L := lib_neg_inf) sel_one_word n
                  = Return (inf, Some m))
  /\ SelectorBIC_select (L := lib_neg_inf) sel_one_word = Return None.
Proof.
  split; [|reflexivity].
  intros n Hn. assert (Hc : n = 2 \/ n = 3 \/ n = 4) by lia.
  split_cases Hc; subst n; eexists; repeat split; reflexivity.
Qed.

Lemma SelectorDIC_select_first_maximum_witness :
  exists n m s,
    2 <= n < 5
    /\ DIC_candidate (L := lib_dic) sel_two_words n m s
    /\ SelectorDIC_select (L := lib_dic) sel_two_words = Return (Some m)
    /\ n_components m = n.
Proof.
  assert (Hok : forall n,
             min_n_components sel_two_words <= n < max_n_components sel_two_words ->
             exists m s, DIC_candidate (L := lib_dic) sel_two_words n m s).
  { intros n Hn. change (2 <= n < 5) in Hn.
    assert (Hc : n = 2 \/ n = 3 \/ n = 4) by lia. split_cases Hc; subst n.
    - destruct (proj1 (SelectorDIC_score_spec (L := lib_dic) sel_two_words 2 _ _)
                  eq_refl) as (m & _ & Hc). eauto.
    - destruct (proj1 (SelectorDIC_score_spec (L := lib_dic) sel_two_words 3 _ _)
                  eq_refl) as (m & _ & Hc). eauto.
    - destruct (proj1 (SelectorDIC_score_spec (L := lib_dic) sel_two_words 4 _ _)
                  eq_refl) as (m & _ & Hc). eauto. }
  destruct (SelectorDIC_select_first_maximum (L := lib_dic) sel_two_words Hok)
    as (_ & _ & _ & [(n & m & s & Hn & Hc & _ & Hsel & Hcount & _)|(Hsel & _)]).
  - exists n, m, s. auto.
  - assert (Hx : SelectorDIC_select (L := lib_dic) sel_two_words
                 = Return (Some (table_model fits_always loglik_dic 3)))
      by reflexivity.
    rewrite Hx in Hsel. discriminate Hsel.
Defined.

(** C2 as stated fails: in a vocabulary of one word every fit and every
    score succeeds, yet [select] returns no model. *)
Lemma SelectorDIC_select_counterexample :
  (forall n, 2 <= n < 4 ->
             exists m s, DIC_candidate (L := lib_bic) sel_one_word n m s)
  /\ SelectorDIC_select (L := lib_bic) sel_one_word = Return None.
Proof.
  split; [|reflexivity].
  intros n Hn. assert (Hc : n = 2 \/ n = 3) by lia. split_cases Hc; subst n.
  - destruct (proj1 (SelectorDIC_score_spec (L := lib_bic) sel_one_word 2 _ _)
                eq_refl) as (m & _ & Hc). eauto.
  - destruct (proj1 (SelectorDIC_score_spec (L := lib_bic) sel_one_word 3 _ _)
                eq_refl) as (m & _ & Hc). eauto.
Qed.

Lemma SelectorCV_select_refits_first_maximum_witness :
  exists best,
    SelectorCV_select (L := lib_dic) sel_two_sequences
    = base_model (L := lib_dic) sel_two_sequences best
    /\ 2 <= best <= 4.
Proof.
  assert (Hlen : (2 <= List.length (sequences sel_two_sequences))%nat)
    by (simpl; lia).
  assert (Hok : forall n,
             min_n_components sel_two_sequences <= n
             <= max_n_components sel_two_sequences ->
             exists s, CV_candidate (L := lib_dic) sel_two_sequences n s).
  { intros n Hn. change (2 <= n <= 4) in Hn.
    assert (Hc : n = 2 \/ n = 3 \/ n = 4) by lia. split_cases Hc; subst n;
      eexists; apply SelectorCV_score_spec; reflexivity. }
  destruct (SelectorCV_select_refits_first_maximum (L := lib_dic)
              sel_two_sequences Hlen Hok)
    as (best & Hsel & _ & [(s & Hbest & _)|(-> & _)] & _).
  - exists best. split; [exact Hsel | exact Hbest].
  - exists 3. split; [exact Hsel | lia].
Defined.

(** C3 as stated fails: with two sequences and every fit and score
    succeeding, each model answers minus infinity, no mean exceeds the
    initial best, and the model returned has 3 states although the
    candidates are 4, 5 and 6. *)
Lemma SelectorCV_select_counterexample :
  (2 <= List.length (sequences sel_high_range))%nat
  /\ (forall n, 4 <= n <= 6 ->
                CV_candidate (L := lib_neg_inf) sel_high_range n neg_inf)
  /\ SelectorCV_select (L := lib_neg_inf) sel_high_range
     = Return (Some (table_model _ _ 3)).
Proof.
  split; [simpl; lia|]. split; [|reflexivity].
  intros n Hn. assert (Hc : n = 4 \/ n = 5 \/ n = 6) by lia.
  split_cases Hc; subst n; apply SelectorCV_score_spec; reflexivity.
Qed.

Lemma select_fit_failure_falls_back_witness :
  select (L := lib_fit_fails_3) SelectorBIC sel_one_word
  = base_model (L := lib_fit_fails_3) sel_one_word 3
  /\ select (L := lib_fit_fails_3) SelectorBIC sel_one_word = Return None.
Proof.
  assert (Hfail : candidate_fit_fails (L := lib_fit_fails_3) SelectorBIC
                    sel_one_word 3).
  { split.
    - simpl. auto.
    - exists ValueError. reflexivity. }
  destruct (select_fit_failure_falls_back (L := lib_fit_fails_3) sel_one_word
              SelectorBIC 3 Hfail) as (Hsel & _ & Hnone).
  split; [exact Hsel|].
  apply (Hnone ValueError). reflexivity.
Defined.

(** C4 as stated fails: the fit raises at 3 states only, the candidates at 2
    and 4 states fit and score, the one at 2 states was found before the
    failure, and yet [select] returns no model at all. *)
Lemma select_fit_failure_counterexample :
  hmm_fit (Libraries := lib_fit_fails_3) 3 (random_state sel_one_word)
    (X sel_one_word) (lengths sel_one_word) = Raise ValueError
  /\ SelectorBIC_score (L := lib_fit_fails_3) sel_one_word 2
     = Return (of_Z 120, Some (table_model _ _ 2))
  /\ SelectorBIC_score (L := lib_fit_fails_3) sel_one_word 4
     = Return (of_Z 110, Some (table_model _ _ 4))
  /\ SelectorBIC_select (L := lib_fit_fails_3) sel_one_word = Return None.
Proof. repeat split; reflexivity. Qed.

Lemma recognize_failed_word_witness :
  exists table guess,
    nth_error
      (fst (fst (recognize (L := table_libraries fits_always loglik_word1_raises)
                   (two_models _ _) one_item []))) 0 = Some table
    /\ nth_error
         (snd (fst (recognize (L := table_libraries fits_always loglik_word1_raises)
                      (two_models _ _) one_item []))) 0 = Some guess
    /\ dict_get table "WORD1" = Some neg_inf
    /\ guess <> Some "WORD1"%string.
Proof.
  assert (Hnd : NoDup (keys (two_models fits_always loglik_word1_raises))).
  { simpl. repeat constructor; simpl; intuition discriminate. }
  destruct (recognize_failed_word (L := table_libraries fits_always loglik_word1_raises)
              (two_models _ _) one_item [] 0%nat ([frame 0], [1]) Hnd eq_refl)
    as (table & guess & Ht & Hg & Hfail & _).
  exists table, guess. split; [exact Ht|]. split; [exact Hg|].
  apply (Hfail "WORD1"%string (Some (table_model _ _ 2)) ValueError).
  - left. reflexivity.
  - reflexivity.
Defined.



(** C7 as stated fails: CV with [n_constant = 5] and the candidates 4 to 6,
    whose every mean is a NaN, returns a model of 3 states. *)
Lemma select_state_count_counterexample :
  exists m,
    select (L := lib_nan) SelectorCV sel_high_range = Return (Some m)
    /\ n_components m = 3
    /\ ~ (min_n_components sel_high_range <= n_components m
          <= max_n_components sel_high_range)
    /\ n_components m <> n_constant sel_high_range.
Proof.
  exists (table_model _ _ 3). repeat split.
  - simpl. lia.
  - discriminate.
Qed.


Lemma SelectorDIC_select_single_word_witness :
  SelectorDIC_select (L := lib_bic) sel_one_word = Return None.
Proof.
  assert (Honly : forall w xl, In (w, xl) (hwords sel_one_word) ->
                               w = this_word sel_one_word).
  { intros w xl [[= <- <-]|[]]. reflexivity. }
  assert (Hok : forall n,
             min_n_components sel_one_word <= n < max_n_components sel_one_word ->
             exists m own,
               GaussianHMM_fit (L := lib_bic) n (random_state sel_one_word)
                 (X sel_one_word) (lengths sel_one_word) = Return m
               /\ score (Some m) (X sel_one_word) (lengths sel_one_word)
                  = Return own).
  { intros n Hn. change (2 <= n < 4) in Hn.
    assert (Hc : n = 2 \/ n = 3) by lia.
    split_cases Hc; subst n; eexists; eexists; split; reflexivity. }
  exact (proj2 (proj2 (SelectorDIC_select_single_word (L := lib_bic)
                         sel_one_word Honly Hok))).
Defined.

(** C9 as stated fails: the vocabulary holds the target word only and every
    fit succeeds, but the models raise when they score, so the handler runs
    and [select] returns the model fit at [n_constant], not [None]. *)
Lemma SelectorDIC_select_single_word_counterexample :
  (forall w xl, In (w, xl) (hwords sel_one_word) -> w = this_word sel_one_word)
  /\ (forall n, GaussianHMM_fit (L := lib_score_raises) n
                  (random_state sel_one_word) (X sel_one_word)
                  (lengths sel_one_word)
                = Return (table_model _ _ n))
  /\ SelectorDIC_select (L := lib_score_raises) sel_one_word
     = Return (Some (table_model _ _ 3)).
Proof.
  split; [|split; reflexivity].
  intros w xl [[= <- <-]|[]]. reflexivity.
Qed.

Lemma SelectorCV_select_too_few_sequences_witness :
  SelectorCV_select (L := lib_bic) sel_one_word
  = Return (Some (table_model _ _ 3)).
Proof.
  assert (Hlen : (List.length (sequences sel_one_word) < 2)%nat)
    by (simpl; lia).
  assert (Hrange : min_n_components sel_one_word <= max_n_components sel_one_word)
    by (simpl; lia).
  destruct (SelectorCV_select_too_few_sequences (L := lib_bic) sel_one_word
              Hlen Hrange) as (_ & _ & Hfit & _).
  apply Hfit. reflexivity.
Defined.

(** C10 as stated fails: with one sequence and the empty range from 5 to 4,
    [score] is never called, nothing is raised and [select] returns the
    model of 3 states, not the one fit at [n_constant = 2]. *)
Lemma SelectorCV_select_too_few_sequences_counterexample :
  (List.length (sequences sel_empty_range) < 2)%nat
  /\ base_model (L := lib_bic) sel_empty_range (n_constant sel_empty_range)
     = Return (Some (table_model _ _ 2))
  /\ SelectorCV_select (L := lib_bic) sel_empty_range
     = Return (Some (table_model _ _ 3))
  /\ SelectorCV_select (L := lib_bic) sel_empty_range
     <> base_model (L := lib_bic) sel_empty_range (n_constant sel_empty_range).
Proof.
  split; [simpl; lia|]. split; [reflexivity|]. split; [reflexivity|].
  discriminate.
Qed.


(** * Further properties of the selectors *)



Section MoreSelectors.
Context {L : Libraries}.
Variable self : ModelSelector.


Lemma base_model_full_fit (n : Z) (m : GaussianHMM) :
  base_model self n = Return (Some m) ->
  GaussianHMM_fit (n_components m) (random_state self) (X self) (lengths self)
  = Return m.
Proof.
  intros Hb. rewrite (base_model_n_components self n m Hb).
  apply base_model_Some. exact Hb.
Qed.

(** X3.  Whatever the strategy, a model that [select] returns is the fit on
    the word's whole data ([self.X], [self.lengths]) with the selector's
    seed at the state count the model reports: never a model trained on a
    fold or on another word's data. *)
Theorem select_returns_full_data_fit (cls : Selector) (m : GaussianHMM) :
  select cls self = Return (Some m) ->
  GaussianHMM_fit (n_components m) (random_state self) (X self) (lengths self)
  = Return m.
Proof.
  destruct cls; simpl.
  - unfold SelectorConstant_select. apply base_model_full_fit.
  - unfold SelectorBIC_select. rewrite SelectorBIC_loop_search.
    destruct (search flt (SelectorBIC_score self)
                (SelectorBIC_candidates self) inf None)
      as [[s om]|e] eqn:Hr; cbn [bind try_except snd].
    + intros [= ->].
      destruct (search_Return_inv _ _ _ _ _ _ _ Hr)
        as [Hnone|(n & Hn & Hs)]; [discriminate Hnone|].
      apply SelectorBIC_score_spec in Hs.
      destruct Hs as (m' & [= <-] & logL & X0 & p & Hfit & _).
      rewrite (GaussianHMM_fit_n_components _ _ _ _ _ Hfit). exact Hfit.
    + apply base_model_full_fit.
  - unfold SelectorDIC_select. rewrite SelectorDIC_loop_search.
    destruct (search fgt (SelectorDIC_score self)
                (SelectorDIC_candidates self) neg_inf None)
      as [[s om]|e] eqn:Hr; cbn [bind try_except snd].
    + intros [= ->].
      destruct (search_Return_inv _ _ _ _ _ _ _ Hr)
        as [Hnone|(n & Hn & Hs)]; [discriminate Hnone|].
      apply SelectorDIC_score_spec in Hs.
      destruct Hs as (m' & [= <-] & own & others & Hfit & _).
      rewrite (GaussianHMM_fit_n_components _ _ _ _ _ Hfit). exact Hfit.
    + apply base_model_full_fit.
  - destruct (SelectorCV_loop self (SelectorCV_candidates self) neg_inf 3)
      as [best|e] eqn:Hr.
    + rewrite (SelectorCV_select_after_search self best Hr).
      apply base_model_full_fit.
    + rewrite (SelectorCV_select_fallback self e Hr).
      apply base_model_full_fit.
Qed.

Lemma Forall2_scored_In (m : GaussianHMM) (l : dict Xlengths)
    (others : list float) :
  Forall2 (fun e o => score (Some m) (fst (snd e)) (snd (snd e)) = Return o)
    l others ->
  forall w xl, In (w, xl) l ->
    exists o, score (Some m) (fst xl) (snd xl) = Return o.
Proof.
  induction 1 as [|x o xs os Hx HF IH]; intros w xl Hin; [destruct Hin|].
  destruct Hin as [->|Hin]; [exists o; exact Hx | eauto].
Qed.

(** X4.  A score that raises is handled like a failed fit.  If at some
    candidate state count the fit succeeds but the model raises when it
    scores the word's own data (BIC, DIC) or the data of another word of the
    vocabulary (DIC), or if [SelectorCV.score] raises for whatever reason,
    the search is abandoned and [select] returns the fit at [n_constant]. *)
Theorem select_score_failure_falls_back (n : Z) (m : GaussianHMM) (e : exn) :
  GaussianHMM_fit n (random_state self) (X self) (lengths self) = Return m ->
  (min_n_components self <= n <= max_n_components self ->
   score (Some m) (X self) (lengths self) = Raise e ->
   SelectorBIC_select self = base_model self (n_constant self))
  /\ (min_n_components self <= n < max_n_components self ->
      score (Some m) (X self) (lengths self) = Raise e
      \/ (exists w X' l',
            In (w, (X', l')) (hwords self) /\ w <> this_word self
            /\ score (Some m) X' l' = Raise e) ->
      SelectorDIC_select self = base_model self (n_constant self))
  /\ (min_n_components self <= n <= max_n_components self ->
      SelectorCV_score self n = Raise e ->
      SelectorCV_select self = base_model self (n_constant self)).
Proof.
  intros Hfit. apply base_model_Some in Hfit. split; [|split].
  - intros Hn Hs.
    apply (SelectorBIC_select_score_raises self n e).
    + apply In_SelectorBIC_candidates. exact Hn.
    + unfold SelectorBIC_score. rewrite Hfit. cbn [bind]. rewrite Hs.
      reflexivity.
  - intros Hn Hs.
    assert (Hr : exists e', SelectorDIC_score self n = Raise e').
    { unfold SelectorDIC_score. rewrite Hfit. cbn [bind].
      destruct (SelectorDIC_others self (Some m) (hwords self) [])
        as [arr|e0] eqn:Harr; cbn [bind]; [|eauto].
      destruct Hs as [Hs|(w & X' & l' & Hin & Hne & Hs)].
      - rewrite Hs. cbn [bind]. eauto.
      - exfalso.
        destruct (SelectorDIC_others_sound self m _ _ _ Harr) as (others & HF & _).
        assert (Hin' : In (w, (X', l')) (other_words self)).
        { unfold other_words. apply filter_In. split; [exact Hin|].
          simpl. apply negb_true_iff. apply String.eqb_neq. exact Hne. }
        destruct (Forall2_scored_In m _ _ HF _ _ Hin') as (o & Ho).
        cbn [fst snd] in Ho. rewrite Hs in Ho. discriminate Ho. }
    destruct Hr as (e' & Hr).
    apply (SelectorDIC_select_score_raises self n e').
    + apply In_SelectorDIC_candidates. exact Hn.
    + exact Hr.
  - intros Hn Hs.
    apply (SelectorCV_select_score_raises self n e).
    + apply In_SelectorCV_candidates. exact Hn.
    + exact Hs.
Qed.

(** X5.  A word whose feature matrix has no frame cannot be scored by BIC:
    with a non-empty range of candidates either the fit, or the score, or
    the read of the first frame raises, and [SelectorBIC.select] returns the
    fit at [n_constant]. *)
Theorem SelectorBIC_select_no_frames :
  X self = [] ->
  min_n_components self <= max_n_components self ->
  (forall n, exists e, SelectorBIC_score self n = Raise e)
  /\ SelectorBIC_select self = base_model self (n_constant self).
Proof.
  intros HX Hrange.
  assert (Hs : forall n, exists e, SelectorBIC_score self n = Raise e).
  { intros n. unfold SelectorBIC_score.
    destruct (base_model_cases self n) as [(m & _ & ->)|(e & _ & ->)];
      cbn [bind]; [|simpl; eauto].
    destruct (score (Some m) (X self) (lengths self)); cbn [bind]; [|eauto].
    rewrite HX. simpl. eauto. }
  split; [exact Hs|].
  destruct (Hs (min_n_components self)) as (e & He).
  apply (SelectorBIC_select_score_raises self (min_n_components self) e).
  - apply In_SelectorBIC_candidates. lia.
  - exact He.
Qed.

Lemma py_range_empty (start stop : Z) : stop <= start -> py_range start stop = [].
Proof.
  intros Hle. unfold py_range.
  replace (Z.to_nat (stop - start)) with 0%nat by lia. reflexivity.
Qed.

(** X6.  An empty range is not an error and does not reach the fallback.
    With [max_n_components < min_n_components], BIC returns [None] and CV
    returns the fit at 3 states; DIC, whose range excludes its upper bound,
    returns [None] as soon as [max_n_components <= min_n_components], so
    also when a single state count is asked for.  None of them fits at
    [n_constant]. *)
Theorem select_empty_range :
  (max_n_components self < min_n_components self ->
   SelectorBIC_select self = Return None)
  /\ (max_n_components self <= min_n_components self ->
      SelectorDIC_select self = Return None)
  /\ (max_n_components self < min_n_components self ->
      SelectorCV_select self = base_model self 3).
Proof.
  split; [|split]; intros Hlt.
  - unfold SelectorBIC_select, SelectorBIC_candidates.
    rewrite py_range_empty by lia. reflexivity.
  - unfold SelectorDIC_select, SelectorDIC_candidates.
    rewrite py_range_empty by lia. reflexivity.
  - apply SelectorCV_select_after_search. unfold SelectorCV_candidates.
    rewrite py_range_empty by lia. reflexivity.
Qed.

(** X7.  With at least two sequences, [SelectorCV.score] is the mean of two
    held-out scores over a split of the sequences into a first part and the
    rest, both non-empty: each model is trained on at least one sequence,
    tested on at least one other, and every sequence is tested once.  With
    exactly two sequences each model is trained on one and tested on the
    other. *)
Theorem SelectorCV_score_folds (n : Z) :
  (2 <= List.length (sequences self))%nat ->
  exists head rest,
    sequences self = head ++ rest
    /\ head <> [] /\ rest <> []
    /\ List.length head
       = (List.length (sequences self) / 2
          + List.length (sequences self) mod 2)%nat
    /\ SelectorCV_score self n =
       bind (held_out self n rest head) (fun s0 =>
       bind (held_out self n head rest) (fun s1 =>
       Return (np_mean [s0; s1]))).
Proof.
  intros Hlen.
  set (k := (List.length (sequences self) / 2
             + List.length (sequences self) mod 2)%nat).
  exists (firstn k (sequences self)), (skipn k (sequences self)).
  pose proof (Nat.div_mod_eq (List.length (sequences self)) 2) as Hdm.
  pose proof (Nat.mod_upper_bound (List.length (sequences self)) 2) as Hmod.
  assert (Hk : (0 < k < List.length (sequences self))%nat) by (unfold k; lia).
  split; [symmetry; apply firstn_skipn|].
  split.
  { intros Hnil. apply (f_equal (@List.length _)) in Hnil.
    rewrite length_firstn in Hnil. simpl in Hnil. lia. }
  split.
  { intros Hnil. apply (f_equal (@List.length _)) in Hnil.
    rewrite length_skipn in Hnil. simpl in Hnil. lia. }
  split; [rewrite length_firstn; lia|].
  apply (SelectorCV_score_held_out self n Hlen).
Qed.
End MoreSelectors.

(** * Further properties of the recogniser *)

Lemma dict_setitem_fresh {V : Type} (d : dict V) (k : string) (v : V) :
  ~ In k (keys d) -> dict_setitem d k v = d ++ [(k, v)].
Proof.
  unfold keys. induction d as [|[k' v'] rest IH]; simpl; intros Hnotin;
    [reflexivity|].
  destruct (String.eqb k' k) eqn:Hk.
  - apply String.eqb_eq in Hk. tauto.
  - rewrite IH by tauto. reflexivity.
Qed.


Section MoreRecognize.
Context {L : Libraries}.
Variable models : dict (option GaussianHMM).

(** What the loop over the words stores for one word. *)
Let entry (item : Xlengths) (wm : string * option GaussianHMM)
    : string * float :=
  (fst wm,
   match score (snd wm) (fst item) (snd item) with
   | Return s => s
   | Raise _ => neg_inf
   end).

Lemma recognize_word_table (X' : FeatureMatrix) (l' : list Z)
    (st : word_loop_state) (w : string) (model : option GaussianHMM) :
  word_probabilities (recognize_word X' l' st w model)
  = dict_setitem (word_probabilities st) w (snd (entry (X', l') (w, model))).
Proof.
  unfold recognize_word, entry. simpl.
  destruct (score model X' l') as [s|e]; [destruct (fgt s (best_score st))|];
    reflexivity.
Qed.

Lemma recognize_words_table (X' : FeatureMatrix) (l' : list Z)
    (items : dict (option GaussianHMM)) :
  forall st,
    NoDup (keys (word_probabilities st) ++ keys items) ->
    word_probabilities (recognize_words X' l' items st)
    = word_probabilities st ++ map (entry (X', l')) items.
Proof.
  induction items as [|[w model] rest IH]; intros st Hnd; simpl.
  - rewrite app_nil_r. reflexivity.
  - assert (Hfresh : ~ In w (keys (word_probabilities st))).
    { intros Hin. simpl in Hnd. apply NoDup_remove_2 in Hnd. apply Hnd.
      apply in_or_app. left. exact Hin. }
    rewrite IH; rewrite recognize_word_table, dict_setitem_fresh by exact Hfresh.
    + rewrite <- app_assoc. reflexivity.
    + unfold keys in *. rewrite map_app, <- app_assoc. exact Hnd.
Qed.

(** X8.  For a dict of models (distinct keys), the score table of a test
    item has exactly one entry per word, in the order of the models: the
    score the word's model returns on the item, or minus infinity when the
    model raises (or is [None]). *)
Theorem recognize_table (test_set : SinglesData)
    (filters : list warning_filter) (i : nat) (item : Xlengths) :
  NoDup (keys models) ->
  nth_error (values (get_all_Xlengths test_set)) i = Some item ->
  nth_error (fst (fst (recognize models test_set filters))) i
  = Some (map (fun wm =>
                 (fst wm,
                  match score (snd wm) (fst item) (snd item) with
                  | Return s => s
                  | Raise _ => neg_inf
                  end)) models).
Proof.
  intros Hnd Hnth.
  destruct (recognize_nth models test_set filters i item Hnth) as [-> _].
  f_equal. unfold recognize_item. rewrite recognize_words_table by exact Hnd.
  destruct item as [X' l']. reflexivity.
Qed.

Lemma recognize_words_best (X' : FeatureMatrix) (l' : list Z)
    (items : dict (option GaussianHMM)) :
  forall st,
    (best_score (recognize_words X' l' items st) = best_score st
     /\ best_guess (recognize_words X' l' items st) = best_guess st
     /\ forall w m s, In (w, m) items -> score m X' l' = Return s ->
                      fgt s (best_score st) = false)
    \/ exists pre w m post s,
         items = pre ++ (w, m) :: post
         /\ score m X' l' = Return s
         /\ best_score (recognize_words X' l' items st) = s
         /\ best_guess (recognize_words X' l' items st) = Some w
         /\ fgt s (best_score st) = true
         /\ (forall w' m' s', In (w', m') pre -> score m' X' l' = Return s' ->
                              fge s' s = false)
         /\ (forall w' m' s', In (w', m') items -> score m' X' l' = Return s' ->
                              fgt s' s = false).
Proof.
  induction items as [|[w0 m0] rest IH]; intros st.
  - left. repeat split. intros w m s [].
  - cbn [recognize_words].
    destruct (score m0 X' l') as [s0|e0] eqn:Hs0.
    + destruct (fgt s0 (best_score st)) eqn:Hb.
      * assert (Hst : recognize_word X' l' st w0 m0
                      = {| word_probabilities :=
                             dict_setitem (word_probabilities st) w0 s0;
                           best_score := s0; best_guess := Some w0 |})
          by (unfold recognize_word; rewrite Hs0, Hb; reflexivity).
        rewrite Hst.
        match goal with |- context [recognize_words X' l' rest ?st1] =>
          destruct (IH st1) as [(Hbs & Hbg & Hall)
            |(pre & w & m & post & s & Heq & Hs & Hbs & Hbg & Hb1 & Hpre & Hall)]
        end; cbn [best_score best_guess] in *.
        -- right. exists [], w0, m0, rest, s0. repeat split; auto.
           ++ intros w' m' s' [].
           ++ intros w' m' s' [[= <- <-]|Hin] Hs'; [|eauto].
              rewrite Hs0 in Hs'. injection Hs' as <-. apply fgt_irrefl.
        -- right. exists ((w0, m0) :: pre), w, m, post, s.
           repeat split; auto.
           ++ simpl. rewrite Heq. reflexivity.
           ++ eapply fgt_trans; eauto.
           ++ intros w' m' s' [[= <- <-]|Hin] Hs'; [|eauto].
              rewrite Hs0 in Hs'. injection Hs' as <-.
              destruct (fge s0 s) eqn:Hq; [|reflexivity].
              pose proof (fge_fgt_trans _ _ _ Hq Hb1) as Hx.
              rewrite fgt_irrefl in Hx. discriminate.
           ++ intros w' m' s' [[= <- <-]|Hin] Hs'; [|eauto].
              rewrite Hs0 in Hs'. injection Hs' as <-.
              destruct (fgt s0 s) eqn:Hq; [|reflexivity].
              pose proof (fgt_trans _ _ _ Hq Hb1) as Hx.
              rewrite fgt_irrefl in Hx. discriminate.
      * assert (Hst : best_score (recognize_word X' l' st w0 m0) = best_score st
                      /\ best_guess (recognize_word X' l' st w0 m0)
                         = best_guess st)
          by (unfold recognize_word; rewrite Hs0, Hb; split; reflexivity).
        destruct Hst as [Hst1 Hst2].
        destruct (IH (recognize_word X' l' st w0 m0))
          as [(Hbs & Hbg & Hall)
             |(pre & w & m & post & s & Heq & Hs & Hbs & Hbg & Hb1 & Hpre & Hall)];
          rewrite Hst1 in *.
        -- left. repeat split; [congruence | congruence |].
           intros w' m' s' [[= <- <-]|Hin] Hs'; [|eauto].
           rewrite Hs0 in Hs'. injection Hs' as <-. exact Hb.
        -- right. exists ((w0, m0) :: pre), w, m, post, s.
           repeat split; auto.
           ++ simpl. rewrite Heq. reflexivity.
           ++ intros w' m' s' [[= <- <-]|Hin] Hs'; [|eauto].
              rewrite Hs0 in Hs'. injection Hs' as <-.
              destruct (fge s0 s) eqn:Hq; [|reflexivity].
              rewrite (fge_fgt_trans _ _ _ Hq Hb1) in Hb. discriminate.
           ++ intros w' m' s' [[= <- <-]|Hin] Hs'; [|eauto].
              rewrite Hs0 in Hs'. injection Hs' as <-.
              destruct (fgt s0 s) eqn:Hq; [|reflexivity].
              rewrite (fgt_trans _ _ _ Hq Hb1) in Hb. discriminate.
    + assert (Hst : best_score (recognize_word X' l' st w0 m0) = best_score st
                    /\ best_guess (recognize_word X' l' st w0 m0)
                       = best_guess st)
        by (unfold recognize_word; rewrite Hs0; split; reflexivity).
      destruct Hst as [Hst1 Hst2].
      destruct (IH (recognize_word X' l' st w0 m0))
        as [(Hbs & Hbg & Hall)
           |(pre & w & m & post & s & Heq & Hs & Hbs & Hbg & Hb1 & Hpre & Hall)];
        rewrite Hst1 in *.
      * left. repeat split; [congruence | congruence |].
        intros w' m' s' [[= <- <-]|Hin] Hs'; [congruence | eauto].
      * right. exists ((w0, m0) :: pre), w, m, post, s.
        repeat split; auto.
        -- simpl. rewrite Heq. reflexivity.
        -- intros w' m' s' [[= <- <-]|Hin] Hs'; [congruence | eauto].
        -- intros w' m' s' [[= <- <-]|Hin] Hs'; [congruence | eauto].
Qed.

(** X9.  The guess for a test item is the first word, in the order of the
    models, whose score no other word exceeds: no returned score is above
    its score and none of an earlier word equals it.  It is [None] exactly
    when no model returns a score above minus infinity. *)
Theorem recognize_guess_first_maximum (test_set : SinglesData)
    (filters : list warning_filter) (i : nat) (item : Xlengths) :
  nth_error (values (get_all_Xlengths test_set)) i = Some item ->
  exists guess,
    nth_error (snd (fst (recognize models test_set filters))) i = Some guess
    /\ ((guess = None
         /\ forall w m s, In (w, m) models ->
                          score m (fst item) (snd item) = Return s ->
                          fgt s neg_inf = false)
        \/ exists pre w m post s,
             models = pre ++ (w, m) :: post
             /\ guess = Some w
             /\ score m (fst item) (snd item) = Return s
             /\ fgt s neg_inf = true
             /\ (forall w' m' s', In (w', m') pre ->
                                  score m' (fst item) (snd item) = Return s' ->
                                  fge s' s = false)
             /\ (forall w' m' s', In (w', m') models ->
                                  score m' (fst item) (snd item) = Return s' ->
                                  fgt s' s = false)).
Proof.
  intros Hnth.
  destruct (recognize_nth models test_set filters i item Hnth) as [_ Hg].
  exists (best_guess (recognize_item models item)). split; [exact Hg|].
  unfold recognize_item.
  match goal with |- context [recognize_words _ _ _ ?st0] =>
    destruct (recognize_words_best (fst item) (snd item) models st0)
      as [(_ & Hbg & Hall)
         |(pre & w & m & post & s & Heq & Hs & _ & Hbg & Hb & Hpre & Hall)]
  end.
  - left. split; [exact Hbg | exact Hall].
  - right. exists pre, w, m, post, s. repeat split; auto.
Qed.

(** X10.  [recognize] maps over the test set: on two test sets put end to
    end it returns the tables and the guesses of the first followed by
    those of the second. *)
Theorem recognize_app (test_set1 test_set2 : SinglesData)
    (filters : list warning_filter) :
  fst (recognize models (test_set1 ++ test_set2) filters)
  = (fst (fst (recognize models test_set1 filters))
       ++ fst (fst (recognize models test_set2 filters)),
     snd (fst (recognize models test_set1 filters))
       ++ snd (fst (recognize models test_set2 filters))).
Proof.
  unfold recognize, values, get_all_Xlengths. cbn [fst snd].
  rewrite !recognize_loop_spec. cbn [fst snd app].
  rewrite !map_app. reflexivity.
Qed.
End MoreRecognize.

(** X11.  With no model at all every test item gets an empty score table
    and the guess [None]; the two lists are still as long as the test
    set. *)
Theorem recognize_no_models {L : Libraries} (test_set : SinglesData)
    (filters : list warning_filter) :
  fst (recognize [] test_set filters)
  = (map (fun _ => []) test_set, map (fun _ => None) test_set).
Proof.
  unfold recognize, values, get_all_Xlengths. cbn [fst snd].
  rewrite recognize_loop_spec. cbn [fst snd app].
  rewrite !map_map. reflexivity.
Qed.


(** * Closed examples of the further properties *)

Lemma select_returns_full_data_fit_witness :
  GaussianHMM_fit (L := lib_bic) 3 (random_state sel_one_word)
    (X sel_one_word) (lengths sel_one_word)
  = Return (table_model fits_always loglik_bic 3).
Proof.
  exact (select_returns_full_data_fit (L := lib_bic) sel_one_word SelectorBIC
           (table_model fits_always loglik_bic 3) eq_refl).
Defined.

Lemma select_score_failure_falls_back_witness :
  SelectorBIC_select (L := lib_score_raises) sel_one_word
  = base_model (L := lib_score_raises) sel_one_word 3
  /\ SelectorDIC_select (L := lib_score_raises) sel_one_word
     = base_model (L := lib_score_raises) sel_one_word 3.
Proof.
  destruct (select_score_failure_falls_back (L := lib_score_raises)
              sel_one_word 2 (table_model fits_always loglik_raises 2)
              ValueError eq_refl) as (Hbic & Hdic & _).
  split.
  - apply Hbic; [simpl; lia | reflexivity].
  - apply Hdic; [simpl; lia | left; reflexivity].
Defined.

Lemma SelectorBIC_select_no_frames_witness :
  SelectorBIC_select (L := lib_bic) sel_no_frames
  = base_model (L := lib_bic) sel_no_frames 3.
Proof.
  assert (Hrange : min_n_components sel_no_frames <= max_n_components sel_no_frames)
    by (simpl; lia).
  exact (proj2 (SelectorBIC_select_no_frames (L := lib_bic) sel_no_frames
                  eq_refl Hrange)).
Defined.

Lemma select_empty_range_witness :
  SelectorBIC_select (L := lib_bic) sel_empty_range = Return None
  /\ SelectorDIC_select (L := lib_bic) sel_empty_range = Return None
  /\ SelectorCV_select (L := lib_bic) sel_empty_range
     = base_model (L := lib_bic) sel_empty_range 3.
Proof.
  destruct (select_empty_range (L := lib_bic) sel_empty_range)
    as (Hbic & Hdic & Hcv).
  split; [|split].
  - apply Hbic. simpl. lia.
  - apply Hdic. simpl. lia.
  - apply Hcv. simpl. lia.
Defined.

Lemma SelectorCV_score_folds_witness :
  exists head rest,
    sequences sel_two_sequences = head ++ rest
    /\ head <> [] /\ rest <> []
    /\ SelectorCV_score (L := lib_dic) sel_two_sequences 3 =
       bind (held_out (L := lib_dic) sel_two_sequences 3 rest head) (fun s0 =>
       bind (held_out (L := lib_dic) sel_two_sequences 3 head rest) (fun s1 =>
       Return (np_mean (L := lib_dic) [s0; s1]))).
Proof.
  assert (Hlen : (2 <= List.length (sequences sel_two_sequences))%nat)
    by (simpl; lia).
  destruct (SelectorCV_score_folds (L := lib_dic) sel_two_sequences 3 Hlen)
    as (head & rest & Heq & Hh & Hr & _ & Hs).
  exists head, rest. auto.
Defined.

Lemma recognize_table_witness :
  nth_error
    (fst (fst (recognize (L := table_libraries fits_always loglik_word1_raises)
                 (two_models _ _) one_item []))) 0
  = Some [("WORD1"%string, neg_inf); ("WORD2"%string, of_Z (-500))].
Proof.
  assert (Hnd : NoDup (keys (two_models fits_always loglik_word1_raises))).
  { simpl. repeat constructor; simpl; intuition discriminate. }
  exact (recognize_table (L := table_libraries fits_always loglik_word1_raises)
           (two_models _ _) one_item [] 0%nat ([frame 0], [1]) Hnd eq_refl).
Defined.

Lemma recognize_guess_first_maximum_witness :
  exists guess,
    nth_error
      (snd (fst (recognize (L := table_libraries fits_always loglik_words)
                   (two_models _ _) two_items []))) 1 = Some guess
    /\ (guess = None \/ exists w, guess = Some w /\ In w (keys (two_models fits_always loglik_words))).
Proof.
  destruct (recognize_guess_first_maximum
              (L := table_libraries fits_always loglik_words)
              (two_models _ _) two_items [] 1%nat
              ([frame 2; frame 3], [2]) eq_refl)
    as (guess & Hg & [(Hnone & _)|(pre & w & m & post & s & Heq & Hw & _)]).
  - exists guess. split; [exact Hg | left; exact Hnone].
  - exists guess. split; [exact Hg|]. right. exists w. split; [exact Hw|].
    rewrite Heq. unfold keys. rewrite map_app. apply in_or_app. right.
    left. reflexivity.
Defined.
